(** * PostureCorrection: pose comparison engine, component registry,
      dependency container and configuration store

    A shallow embedding of the Python sources
    - [src/deps/default_analyzer.py] (module [Analyzer]),
    - [src/constants.py]             (module [Constants]),
    - [src/deps/registry.py]         (module [Registry]),
    - [src/deps/default_config.py]   (module [Config]),
    - [src/deps/mediapipe_heavy_detector.py] and [src/deps/deps.py]
      (modules [Detector], [Deps] and [Threads]).

    Conventions.  A Python [float] is a real number of [R]: rounding,
    overflow and NaN are not modelled.  A Python [dict] with string keys is
    an insertion-ordered association list ([PyDict]).  [None] is [option]'s
    [None].  A call that may raise returns an [outcome]. *)

From Stdlib Require Import String Ascii List Bool Arith ZArith Lia.
From Stdlib Require Import Reals Lra.
From Equations Require Import Equations.
Import ListNotations.

Set Implicit Arguments.
Set Warnings "-register-all".

(** ** Results of calls that may raise *)

Inductive exn : Type :=
| ValueError (msg : string)
| TypeError
| AttributeError
| OtherError (msg : string).

Inductive outcome (A : Type) : Type :=
| Returned (a : A)
| Raised (e : exn).

Arguments Returned {A} a.
Arguments Raised {A} e.

(** A method that mutates [self] and may raise: the state after the call is
    kept in both cases, since Python does not undo the assignments made
    before an exception. *)
Definition exec (S A : Type) : Type := S -> outcome A * S.

Definition ret {S A : Type} (a : A) : exec S A := fun s => (Returned a, s).

Definition raise {S A : Type} (e : exn) : exec S A := fun s => (Raised e, s).

Definition bind {S A B : Type} (m : exec S A) (k : A -> exec S B) : exec S B :=
  fun s =>
    match m s with
    | (Returned a, s') => k a s'
    | (Raised e, s') => (Raised e, s')
    end.

(** A call that does not touch [self]. *)
Definition lift {S A : Type} (o : outcome A) : exec S A := fun s => (o, s).

Definition modify {S : Type} (f : S -> S) : exec S unit :=
  fun s => (Returned tt, f s).

Definition gets {S A : Type} (f : S -> A) : exec S A :=
  fun s => (Returned (f s), s).

Declare Scope exec_scope.
Delimit Scope exec_scope with exec.
Notation "x <- m ;; k" := (bind m (fun x => k))
  (at level 61, m at next level, right associativity) : exec_scope.
Notation "m ;;; k" := (bind m (fun _ => k))
  (at level 61, right associativity) : exec_scope.

(** [for x in l: body x], stopping at the first exception. *)
Fixpoint for_each {S A : Type} (l : list A) (body : A -> exec S unit)
    : exec S unit :=
  match l with
  | [] => ret tt
  | a :: rest => bind (body a) (fun _ => for_each rest body)
  end.

(** ** Insertion-ordered dictionaries with string keys *)

Module PyDict.

Section Dict.
Variable V : Type.

Definition t : Type := list (string * V).

Definition empty : t := [].

(** [d[k]], as an option. *)
Fixpoint get (d : t) (k : string) : option V :=
  match d with
  | [] => None
  | (k', v) :: rest => if String.eqb k' k then Some v else get rest k
  end.

(** [k in d] *)
Definition contains (d : t) (k : string) : bool :=
  match get d k with Some _ => true | None => false end.

(** [d[k] = v]: an existing key keeps its position, a new key goes last. *)
Fixpoint set (d : t) (k : string) (v : V) : t :=
  match d with
  | [] => [(k, v)]
  | (k', v') :: rest =>
      if String.eqb k' k then (k', v) :: rest else (k', v') :: set rest k v
  end.

Definition keys (d : t) : list string := map fst d.
Definition values (d : t) : list V := map snd d.
Definition items (d : t) : list (string * V) := d.

(** [d.get(k, default)] *)
Definition get_or (d : t) (k : string) (default : V) : V :=
  match get d k with Some v => v | None => default end.

Fixpoint mem (k : string) (l : list string) : bool :=
  match l with
  | [] => false
  | k' :: rest => String.eqb k' k || mem k rest
  end.

Fixpoint nodupb (l : list string) : bool :=
  match l with
  | [] => true
  | k :: rest => negb (mem k rest) && nodupb rest
  end.

(** A dictionary holds every key once. *)
Definition wf (d : t) : Prop := nodupb (keys d) = true.

End Dict.

Arguments empty {V}.
Arguments mem k l : simpl nomatch.

End PyDict.

(** [d.get(k)] on a dictionary whose values may be [None]: a missing key and
    a key bound to [None] both give [None]. *)
Definition pyget {V : Type} (d : PyDict.t (option V)) (k : string) : option V :=
  match PyDict.get d k with
  | Some v => v
  | None => None
  end.

(** ** [src/models.py] *)

Module Models.

Record Landmark : Type := mkLandmark {
  x : R;
  y : R;
  z : R;
  visibility : R
}.

Record PoseData : Type := mkPoseData {
  landmarks : list Landmark;
  angles : PyDict.t (option R)
}.

End Models.

(** ** [src/constants.py] *)

Module Constants.

Inductive PoseLandmark : Type :=
| NOSE | LEFT_EYE_INNER | LEFT_EYE | LEFT_EYE_OUTER
| RIGHT_EYE_INNER | RIGHT_EYE | RIGHT_EYE_OUTER
| LEFT_EAR | RIGHT_EAR | MOUTH_LEFT | MOUTH_RIGHT
| LEFT_SHOULDER | RIGHT_SHOULDER | LEFT_ELBOW | RIGHT_ELBOW
| LEFT_WRIST | RIGHT_WRIST | LEFT_PINKY | RIGHT_PINKY
| LEFT_INDEX | RIGHT_INDEX | LEFT_THUMB | RIGHT_THUMB
| LEFT_HIP | RIGHT_HIP | LEFT_KNEE | RIGHT_KNEE
| LEFT_ANKLE | RIGHT_ANKLE | LEFT_HEEL | RIGHT_HEEL
| LEFT_FOOT_INDEX | RIGHT_FOOT_INDEX.

(** [PoseLandmark.value] *)
Definition value (p : PoseLandmark) : nat :=
  match p with
  | NOSE => 0 | LEFT_EYE_INNER => 1 | LEFT_EYE => 2 | LEFT_EYE_OUTER => 3
  | RIGHT_EYE_INNER => 4 | RIGHT_EYE => 5 | RIGHT_EYE_OUTER => 6
  | LEFT_EAR => 7 | RIGHT_EAR => 8 | MOUTH_LEFT => 9 | MOUTH_RIGHT => 10
  | LEFT_SHOULDER => 11 | RIGHT_SHOULDER => 12
  | LEFT_ELBOW => 13 | RIGHT_ELBOW => 14
  | LEFT_WRIST => 15 | RIGHT_WRIST => 16
  | LEFT_PINKY => 17 | RIGHT_PINKY => 18
  | LEFT_INDEX => 19 | RIGHT_INDEX => 20
  | LEFT_THUMB => 21 | RIGHT_THUMB => 22
  | LEFT_HIP => 23 | RIGHT_HIP => 24
  | LEFT_KNEE => 25 | RIGHT_KNEE => 26
  | LEFT_ANKLE => 27 | RIGHT_ANKLE => 28
  | LEFT_HEEL => 29 | RIGHT_HEEL => 30
  | LEFT_FOOT_INDEX => 31 | RIGHT_FOOT_INDEX => 32
  end.

(** (joint, point 1, point 2, name) *)
Definition ANGLE_JOINTS
  : list (PoseLandmark * PoseLandmark * PoseLandmark * string) :=
  [ (LEFT_SHOULDER, LEFT_ELBOW, LEFT_HIP, "左肩角度");
    (RIGHT_SHOULDER, RIGHT_ELBOW, RIGHT_HIP, "右肩角度");
    (LEFT_ELBOW, LEFT_SHOULDER, LEFT_WRIST, "左肘角度");
    (RIGHT_ELBOW, RIGHT_SHOULDER, RIGHT_WRIST, "右肘角度");
    (LEFT_HIP, LEFT_KNEE, LEFT_SHOULDER, "左髋角度");
    (RIGHT_HIP, RIGHT_KNEE, RIGHT_SHOULDER, "右髋角度");
    (LEFT_KNEE, LEFT_HIP, LEFT_ANKLE, "左膝角度");
    (RIGHT_KNEE, RIGHT_HIP, RIGHT_ANKLE, "右膝角度") ]%string.

(** Limb segment to the angles that govern it. *)
Definition LIMB_TO_ANGLES : PyDict.t (list string) :=
  [ ("左大臂", ["左肩角度"; "左肘角度"]);
    ("左小臂", ["左肘角度"]);
    ("右大臂", ["右肩角度"; "右肘角度"]);
    ("右小臂", ["右肘角度"]);
    ("左大腿", ["左髋角度"; "左膝角度"]);
    ("左小腿", ["左膝角度"]);
    ("右大腿", ["右髋角度"; "右膝角度"]);
    ("右小腿", ["右膝角度"]);
    ("左侧躯干", ["左肩角度"; "左髋角度"]);
    ("右侧躯干", ["右肩角度"; "右髋角度"]);
    ("躯干上", []);
    ("躯干下", []) ]%string.

End Constants.

(** ** [src/deps/default_analyzer.py] *)

Module Analyzer.

Import Models.

Local Open Scope R_scope.

(** Comparisons of floats, as booleans. *)
Definition Rleb (a b : R) : bool := if Rle_dec a b then true else false.
Definition Rltb (a b : R) : bool := if Rlt_dec a b then true else false.

(** [np.linalg.norm] and [np.dot] on vectors of two components,
    [np.clip] and [np.degrees]. *)
Definition norm (v : R * R) : R := sqrt (fst v * fst v + snd v * snd v).
Definition dot (u v : R * R) : R := fst u * fst v + snd u * snd v.
Definition clip (a a_min a_max : R) : R := Rmin (Rmax a a_min) a_max.
Definition degrees (rad : R) : R := rad * (180 / PI).

Record DefaultAnalyzer : Type := mkDefaultAnalyzer {
  _angle_threshold : R
}.

(** [DefaultAnalyzer()] with the default threshold of the constructor. *)
Definition new : DefaultAnalyzer := mkDefaultAnalyzer 15.

(** The angle at [p2] between the rays to [p1] and [p3], in degrees. *)
Definition calculate_angle (self : DefaultAnalyzer) (p1 p2 p3 : Landmark) : R :=
  let v1 := (x p1 - x p2, y p1 - y p2) in
  let v2 := (x p3 - x p2, y p3 - y p2) in
  let norm_v1 := norm v1 in
  let norm_v2 := norm v2 in
  if Rltb norm_v1 1e-6 || Rltb norm_v2 1e-6 then 0
  else
    let dot_product := dot v1 v2 in
    let cos_angle := clip (dot_product / (norm_v1 * norm_v2)) (-1) 1 in
    let angle_rad := acos cos_angle in
    degrees angle_rad.

(** [landmarks[i]], raising [IndexError] out of range. *)
Definition index (landmarks : list Landmark) (i : nat) : outcome Landmark :=
  match nth_error landmarks i with
  | Some p => Returned p
  | None => Raised (OtherError "IndexError")
  end.

(** The loop of [extract_pose_angles] over the table of joints. *)
Fixpoint extract_loop (self : DefaultAnalyzer) (landmarks : list Landmark)
    (joints : list (Constants.PoseLandmark * Constants.PoseLandmark
                    * Constants.PoseLandmark * string))
    (angles : PyDict.t (option R)) : outcome (PyDict.t (option R)) :=
  match joints with
  | [] => Returned angles
  | (joint, point1, point2, name) :: rest =>
      match index landmarks (Constants.value joint),
            index landmarks (Constants.value point1),
            index landmarks (Constants.value point2) with
      | Returned p_joint, Returned p1, Returned p2 =>
          if Rltb (1/2) (visibility p_joint)
             && Rltb (1/2) (visibility p1)
             && Rltb (1/2) (visibility p2)
          then extract_loop self landmarks rest
                 (PyDict.set angles name (Some (calculate_angle self p1 p_joint p2)))
          else extract_loop self landmarks rest (PyDict.set angles name None)
      | Raised e, _, _ => Raised e
      | _, Raised e, _ => Raised e
      | _, _, Raised e => Raised e
      end
  end.

Definition extract_pose_angles (self : DefaultAnalyzer)
    (landmarks : list Landmark) : outcome (PyDict.t (option R)) :=
  extract_loop self landmarks Constants.ANGLE_JOINTS PyDict.empty.

(** [threshold] defaults to the analyzer's own when it is [None]. *)
Definition threshold_or_default (self : DefaultAnalyzer)
    (threshold : option R) : R :=
  match threshold with
  | None => _angle_threshold self
  | Some t => t
  end.

Definition compare_angles (self : DefaultAnalyzer)
    (angle1 angle2 : option R) (threshold : option R) : bool * R :=
  let threshold := threshold_or_default self threshold in
  match angle1, angle2 with
  | Some angle1, Some angle2 =>
      let diff := Rabs (angle1 - angle2) in
      let is_matched := Rleb diff threshold in
      (is_matched, diff)
  | _, _ => (true, 0)
  end.

(** First loop of [compare_poses]: the verdict of every angle name of
    [pose1]. *)
Definition angle_matches (self : DefaultAnalyzer) (pose1 pose2 : PoseData)
    (threshold : R) : PyDict.t bool :=
  fold_left
    (fun angle_matches name =>
       let std_angle := pyget (angles pose1) name in
       let user_angle := pyget (angles pose2) name in
       let '(matched, _) :=
         compare_angles self std_angle user_angle (Some threshold) in
       PyDict.set angle_matches name matched)
    (PyDict.keys (angles pose1)) PyDict.empty.

(** Second loop: the verdict of every limb of [LIMB_TO_ANGLES]. *)
Definition limb_matches (angle_matches : PyDict.t bool) : PyDict.t bool :=
  fold_left
    (fun limb_matches entry =>
       let '(limb_name, related_angles) := entry in
       match related_angles with
       | [] => PyDict.set limb_matches limb_name true
       | _ :: _ =>
           PyDict.set limb_matches limb_name
             (forallb (fun angle_name =>
                         PyDict.get_or angle_matches angle_name true)
                      related_angles)
       end)
    (PyDict.items Constants.LIMB_TO_ANGLES) PyDict.empty.

(** The list comprehension [valid_angles]. *)
Definition valid_angles (pose1 : PoseData) (angle_matches : PyDict.t bool)
    : list bool :=
  map snd
    (filter (fun item =>
               match pyget (angles pose1) (fst item) with
               | Some _ => true
               | None => false
               end)
            (PyDict.items angle_matches)).

(** [sum] of a list of booleans and of a list of floats. *)
Definition sum_bool (l : list bool) : nat :=
  fold_left (fun acc b => (acc + Nat.b2n b)%nat) l 0%nat.

Definition compare_poses (self : DefaultAnalyzer) (pose1 pose2 : PoseData)
    (threshold : option R) : PyDict.t bool * R :=
  let threshold := threshold_or_default self threshold in
  let angle_matches := angle_matches self pose1 pose2 threshold in
  let limb_matches := limb_matches angle_matches in
  let valid_angles := valid_angles pose1 angle_matches in
  let match_ratio :=
    match valid_angles with
    | _ :: _ => INR (sum_bool valid_angles) / INR (length valid_angles)
    | [] => 0
    end in
  (limb_matches, match_ratio).

(** The loop of [calculate_similarity_score], on the pair
    [(total_weight, weighted_similarity)]. *)
Definition similarity_loop (pose1 pose2 : PoseData) : R * R :=
  fold_left
    (fun acc name =>
       let '(total_weight, weighted_similarity) := acc in
       let angle1 := pyget (angles pose1) name in
       let angle2 := pyget (angles pose2) name in
       match angle1, angle2 with
       | Some angle1, Some angle2 =>
           let diff := Rabs (angle1 - angle2) in
           let similarity := exp (- (diff ^ 2) / (2 * 30 ^ 2)) in
           (total_weight + 1, weighted_similarity + similarity)
       | _, _ => acc
       end)
    (PyDict.keys (angles pose1)) (0, 0).

Definition calculate_similarity_score (self : DefaultAnalyzer)
    (pose1 pose2 : PoseData) : R :=
  let '(total_weight, weighted_similarity) := similarity_loop pose1 pose2 in
  if Rltb 0 total_weight then weighted_similarity / total_weight else 0.

(** *** Vocabulary of the statements about the analyzer *)

(** The angle [name] has a value in [pose]. *)
Definition present (pose : PoseData) (name : string) : bool :=
  match pyget (angles pose) name with
  | Some _ => true
  | None => false
  end.

(** The verdict [compare_angles] gives for the angle [name]. *)
Definition verdict (self : DefaultAnalyzer) (pose1 pose2 : PoseData)
    (threshold : R) (name : string) : bool :=
  fst (compare_angles self (pyget (angles pose1) name)
         (pyget (angles pose2) name) (Some threshold)).

(** The angle names whose reference value is present, and those of them
    that are matched. *)
Definition present_names (pose1 : PoseData) : list string :=
  filter (present pose1) (PyDict.keys (angles pose1)).

Definition matched_names (self : DefaultAnalyzer) (pose1 pose2 : PoseData)
    (threshold : R) : list string :=
  filter (verdict self pose1 pose2 threshold) (present_names pose1).

(** The entry of an angle name in the verdicts of the angles: the names of
    the reference have one, the others have none. *)
Definition angle_verdict (self : DefaultAnalyzer) (pose1 pose2 : PoseData)
    (threshold : R) (name : string) : option bool :=
  if PyDict.mem name (PyDict.keys (angles pose1))
  then Some (verdict self pose1 pose2 threshold name)
  else None.

(** The verdict of a limb from the verdicts of its governing angles. *)
Definition limb_verdict (verdicts : string -> option bool)
    (related_angles : list string) : bool :=
  match related_angles with
  | [] => true
  | _ :: _ =>
      forallb (fun angle_name =>
                 match verdicts angle_name with
                 | Some matched => matched
                 | None => true
                 end)
              related_angles
  end.

(** The angle names whose values are present in both poses. *)
Definition common_names (pose1 pose2 : PoseData) : list string :=
  filter (fun name => present pose1 name && present pose2 name)
         (PyDict.keys (angles pose1)).

(** The absolute difference of the two values of a common angle. *)
Definition diff_of (pose1 pose2 : PoseData) (name : string) : R :=
  match pyget (angles pose1) name, pyget (angles pose2) name with
  | Some angle1, Some angle2 => Rabs (angle1 - angle2)
  | _, _ => 0
  end.

Definition similarity (diff : R) : R := exp (- (diff ^ 2) / (2 * 30 ^ 2)).

Definition Rsum (l : list R) : R := fold_right Rplus 0 l.

(** The ray from [vertex] to [p], in the plane. *)
Definition ray (vertex p : Landmark) : R * R :=
  (x p - x vertex, y p - y vertex).

(** The poses of the scenario of the left elbow. *)
Definition elbow_reference : PoseData :=
  mkPoseData [] [("左肘角度"%string, Some 150)].

Definition elbow_candidate : PoseData :=
  mkPoseData [] [("左肘角度"%string, Some 130)].

(** *** [get_pose_difference_details] *)

(** The dictionary that [get_pose_difference_details] stores for one angle,
    with its keys ['angle1'], ['angle2'] and ['diff']. *)
Record Detail : Type := mkDetail {
  angle1 : option R;
  angle2 : option R;
  diff : option R
}.

Definition get_pose_difference_details (self : DefaultAnalyzer)
    (pose1 pose2 : PoseData) : PyDict.t Detail :=
  fold_left
    (fun details name =>
       let angle1 := pyget (angles pose1) name in
       let angle2 := pyget (angles pose2) name in
       match angle1, angle2 with
       | Some a1, Some a2 =>
           PyDict.set details name
             (mkDetail angle1 angle2 (Some (Rabs (a1 - a2))))
       | _, _ => PyDict.set details name (mkDetail angle1 angle2 None)
       end)
    (PyDict.keys (angles pose1)) PyDict.empty.

(** The names of the table of joints, in its order. *)
Definition angle_names : list string :=
  map (fun entry => snd entry) Constants.ANGLE_JOINTS.

(** A list of 33 landmarks at the same place, all visible. *)
Definition still_landmarks : list Landmark :=
  repeat (mkLandmark 0 0 0 1) 33.

(** The value that the loop of [extract_pose_angles] stores for an entry of
    the table whose three landmarks are in the list. *)
Definition joint_value (self : DefaultAnalyzer) (landmarks : list Landmark)
    (entry : Constants.PoseLandmark * Constants.PoseLandmark
             * Constants.PoseLandmark * string) : option R :=
  let '(joint, point1, point2, _) := entry in
  match nth_error landmarks (Constants.value joint),
        nth_error landmarks (Constants.value point1),
        nth_error landmarks (Constants.value point2) with
  | Some p_joint, Some p1, Some p2 =>
      if Rltb (1/2) (visibility p_joint)
         && Rltb (1/2) (visibility p1)
         && Rltb (1/2) (visibility p2)
      then Some (calculate_angle self p1 p_joint p2)
      else None
  | _, _, _ => None
  end.

(** The largest index of a landmark that an entry of the table reads. *)
Definition reach (entry : Constants.PoseLandmark * Constants.PoseLandmark
                          * Constants.PoseLandmark * string) : nat :=
  let '(joint, point1, point2, _) := entry in
  Nat.max (Constants.value joint)
    (Nat.max (Constants.value point1) (Constants.value point2)).



End Analyzer.

(** ** [src/deps/registry.py] *)

Module Registry.

Local Open Scope string_scope.

Section WithClasses.

(** Python class objects. *)
Variable Cls : Type.

(** What [importlib.import_module(import_path)] followed by
    [getattr(module, class_name)] gives: an exception, or the attribute,
    which may be [None]. *)
Variable import_class : string -> string -> outcome (option Cls).

Record ComponentInfo : Type := mkComponentInfo {
  name : string;
  cls : option Cls;
  description : string;
  category : string;
  is_default : bool
}.

(** [_lazy_imports] holds, for each key, the two strings the closure
    [lazy_loader] has captured. *)
Record Registry : Type := mkRegistry {
  _components : PyDict.t (PyDict.t ComponentInfo);
  _lazy_imports : PyDict.t (string * string)
}.

(** [Registry()] *)
Definition new : Registry :=
  {| _components :=
       [("detector", PyDict.empty);
        ("analyzer", PyDict.empty);
        ("config", PyDict.empty)];
     _lazy_imports := PyDict.empty |}.

(** [self._components[category][name] = info], after
    [if category not in self._components: self._components[category] = {}]. *)
Definition store (components : PyDict.t (PyDict.t ComponentInfo))
    (category name : string) (info : ComponentInfo)
    : PyDict.t (PyDict.t ComponentInfo) :=
  let components :=
    if PyDict.contains components category then components
    else PyDict.set components category PyDict.empty in
  PyDict.set components category
    (PyDict.set (PyDict.get_or components category PyDict.empty) name info).

Definition register (self : Registry) (category name : string) (cls : Cls)
    (description : string) (is_default : bool) : Registry :=
  {| _components :=
       store (_components self) category name
         {| name := name; cls := Some cls; description := description;
            category := category; is_default := is_default |};
     _lazy_imports := _lazy_imports self |}.

Definition register_lazy (self : Registry) (category name : string)
    (import_path class_name : string)
    (description : string) (is_default : bool) : Registry :=
  {| _components :=
       store (_components self) category name
         {| name := name; cls := None; description := description;
            category := category; is_default := is_default |};
     _lazy_imports :=
       PyDict.set (_lazy_imports self) (category ++ "." ++ name)
         (import_path, class_name) |}.

(** [self._components.get(category, {})] *)
Definition components_of (self : Registry) (category : string)
    : PyDict.t ComponentInfo :=
  PyDict.get_or (_components self) category PyDict.empty.

(** [component_info.cls = loaded] on the descriptor object. *)
Definition with_cls (component_info : ComponentInfo) (loaded : option Cls)
    : ComponentInfo :=
  {| name := name component_info;
     cls := loaded;
     description := description component_info;
     category := category component_info;
     is_default := is_default component_info |}.

(** The descriptor is updated in place, so it keeps its position in the
    dictionary of its category. *)
Definition set_cls (self : Registry) (category name : string)
    (component_info : ComponentInfo) (loaded : option Cls) : Registry :=
  {| _components :=
       PyDict.set (_components self) category
         (PyDict.set (components_of self category) name
            (with_cls component_info loaded));
     _lazy_imports := _lazy_imports self |}.

Definition get (category name : string) : exec Registry (option Cls) :=
  fun self =>
    let key := category ++ "." ++ name in
    let loaded : outcome unit * Registry :=
      match PyDict.get (_lazy_imports self) key with
      | Some (import_path, class_name) =>
          match PyDict.get (components_of self category) name with
          | Some component_info =>
              match cls component_info with
              | None =>
                  match import_class import_path class_name with
                  | Returned loaded =>
                      (Returned tt,
                       set_cls self category name component_info loaded)
                  | Raised e => (Raised e, self)
                  end
              | Some _ => (Returned tt, self)
              end
          | None => (Returned tt, self)
          end
      | None => (Returned tt, self)
      end in
    match loaded with
    | (Returned _, self) =>
        match PyDict.get (components_of self category) name with
        | Some component_info => (Returned (cls component_info), self)
        | None => (Returned None, self)
        end
    | (Raised e, self) => (Raised e, self)
    end.

Definition get_default (category : string) : exec Registry (option Cls) :=
  fun self =>
    let components := components_of self category in
    match find is_default (PyDict.values components) with
    | Some info => get category (name info) self
    | None =>
        match PyDict.keys components with
        | first_name :: _ => get category first_name self
        | [] => (Returned None, self)
        end
    end.

Definition get_default_info (self : Registry) (category : string)
    : option ComponentInfo :=
  let components := components_of self category in
  match find is_default (PyDict.values components) with
  | Some info => Some info
  | None =>
      match PyDict.keys components with
      | first_name :: _ => PyDict.get components first_name
      | [] => None
      end
  end.

Definition list_components (self : Registry) (category : string)
    : PyDict.t ComponentInfo :=
  components_of self category.

Definition clear (self : Registry) : Registry :=
  {| _components :=
       map (fun entry => (fst entry, PyDict.empty)) (_components self);
     _lazy_imports := PyDict.empty |}.

(** Every descriptor is stored under its own [name]: [register] and
    [register_lazy] are the only writers of new descriptors. *)
Definition names_agree (self : Registry) : Prop :=
  forallb
    (fun entry =>
       forallb (fun item => String.eqb (name (snd item)) (fst item))
               (snd entry))
    (_components self) = true.

(** The dictionaries of the registry hold every key once. *)
Definition wf (self : Registry) : Prop :=
  PyDict.wf (_components self)
  /\ forallb (fun entry => PyDict.nodupb (PyDict.keys (snd entry)))
             (_components self) = true.

(** *** Vocabulary of the statements about the registry *)

(** The factory of a descriptor: its class, and for a deferred descriptor
    whose class is not loaded yet, what its loader gives. *)
Definition factory_of (self : Registry) (category : string)
    (info : ComponentInfo) : outcome (option Cls) :=
  match cls info with
  | Some c => Returned (Some c)
  | None =>
      match PyDict.get (_lazy_imports self) (category ++ "." ++ name info) with
      | Some (import_path, class_name) => import_class import_path class_name
      | None => Returned None
      end
  end.

(** The name [get_default] resolves. *)
Definition default_name (self : Registry) (category : string)
    : option string :=
  match find is_default (PyDict.values (components_of self category)) with
  | Some info => Some (name info)
  | None => hd_error (PyDict.keys (components_of self category))
  end.

(** The calls that write to a registry, and the registry after a sequence
    of them on a new one. *)
Inductive call : Type :=
| Register (category name : string) (cls : Cls) (description : string)
    (is_default : bool)
| RegisterLazy (category name import_path class_name description : string)
    (is_default : bool)
| Get (category name : string)
| GetDefault (category : string)
| Clear.

Definition after (self : Registry) (c : call) : Registry :=
  match c with
  | Register category name cls description is_default =>
      register self category name cls description is_default
  | RegisterLazy category name import_path class_name description is_default =>
      register_lazy self category name import_path class_name description
        is_default
  | Get category name => snd (get category name self)
  | GetDefault category => snd (get_default category self)
  | Clear => clear self
  end.

Definition history (calls : list call) : Registry :=
  fold_left after calls new.

End WithClasses.

Arguments new {Cls}.

(** A loader for a module that cannot be imported. *)
Definition no_module {Cls : Type} (import_path class_name : string)
    : outcome (option Cls) :=
  Raised (OtherError "ModuleNotFoundError").

(** A loader that finds every class, a class being given by the path of
    its module and its name. *)
Definition by_path (import_path class_name : string)
    : outcome (option string) :=
  Returned (Some (import_path ++ "." ++ class_name)).

(** Two analyzers, the second one marked as the default; classes are given
    by their names. *)
Definition two_analyzers : Registry string :=
  register
    (register new "analyzer" "First" "FirstAnalyzer" "" false)
    "analyzer" "Second" "SecondAnalyzer" "" true.

End Registry.

(** ** [src/core/base_config.py] and [src/deps/default_config.py] *)

Module Config.

Local Open Scope string_scope.

(** The values a configuration holds: what [json.load] returns, and the
    tuples [from_dict] makes of the lists of the colour section.  A string is
    the sequence of its characters. *)
Inductive PyVal : Type :=
| VNone
| VBool (b : bool)
| VInt (n : Z)
| VFloat (r : R)
| VStr (s : string)
| VList (l : list PyVal)
| VTuple (l : list PyVal)
| VDict (d : list (string * PyVal)).

(** An instance of one of the five dataclasses, as the dictionary of its
    instance attributes.  The attributes a dataclass instance inherits from
    its class (methods and names with two underscores) are not modelled. *)
Definition DataObject : Type := PyDict.t PyVal.

Definition hasattr (obj : DataObject) (attr : string) : bool :=
  PyDict.contains obj attr.

Definition setattr (obj : DataObject) (attr : string) (value : PyVal)
    : DataObject :=
  PyDict.set obj attr value.

Definition ColorConfig : DataObject :=
  [ ("green", VTuple [VInt 0; VInt 255; VInt 0]);
    ("red", VTuple [VInt 0; VInt 0; VInt 255]);
    ("yellow", VTuple [VInt 0; VInt 255; VInt 255]);
    ("white", VTuple [VInt 255; VInt 255; VInt 255]) ].

Definition DetectorConfig : DataObject :=
  [ ("min_detection_confidence", VFloat (1/2));
    ("min_tracking_confidence", VFloat (1/2));
    ("model_path", VStr "pose_landmarker.task") ].

Definition AnalyzerConfig : DataObject :=
  [ ("angle_threshold", VFloat 15) ].

Definition RenderConfig : DataObject :=
  [ ("line_thickness_normal", VInt 2);
    ("line_thickness_bold", VInt 4);
    ("overlay_alpha", VFloat (4/10));
    ("overlay_scale", VFloat (3/10)) ].

Definition WindowConfig : DataObject :=
  [ ("window_name", VStr "Pose Comparison System");
    ("camera_width", VInt 1280);
    ("camera_height", VInt 720) ].

(** *** The dictionary [_custom]

    [from_dict] can put keys that are not strings into it, so its keys are
    values, compared the way Python compares the keys of a dictionary. *)

Definition Reqb (a b : R) : bool := if Req_dec_T a b then true else false.

(** [True == 1 == 1.0] *)
Definition num_of (v : PyVal) : option R :=
  match v with
  | VBool b => Some (if b then 1 else 0)%R
  | VInt n => Some (IZR n)
  | VFloat r => Some r
  | _ => None
  end.

Fixpoint key_eqb (a b : PyVal) {struct a} : bool :=
  match a, b with
  | VNone, VNone => true
  | VStr s, VStr s' => String.eqb s s'
  | VTuple l, VTuple l' =>
      (fix all2 (l l' : list PyVal) {struct l} : bool :=
         match l, l' with
         | [], [] => true
         | a :: l, b :: l' => key_eqb a b && all2 l l'
         | _, _ => false
         end) l l'
  | _, _ =>
      match num_of a, num_of b with
      | Some r, Some r' => Reqb r r'
      | _, _ => false
      end
  end.

Fixpoint hashable (v : PyVal) : bool :=
  match v with
  | VList _ | VDict _ => false
  | VTuple l => forallb hashable l
  | _ => true
  end.

Definition CustomDict : Type := list (PyVal * PyVal).

(** [d[k] = v] *)
Fixpoint custom_set (d : CustomDict) (k v : PyVal) : CustomDict :=
  match d with
  | [] => [(k, v)]
  | (k', v') :: rest =>
      if key_eqb k' k then (k', v) :: rest else (k', v') :: custom_set rest k v
  end.

(** The two items of an element of the iterable given to [dict.update]. *)
Definition as_pair (element : PyVal) : outcome (PyVal * PyVal) :=
  match element with
  | VList [k; v] | VTuple [k; v] => Returned (k, v)
  | VStr (String a (String b EmptyString)) =>
      Returned (VStr (String a EmptyString), VStr (String b EmptyString))
  | VDict [(k, _); (k', _)] => Returned (VStr k, VStr k')
  | VList _ | VTuple _ | VStr _ | VDict _ =>
      Raised (ValueError "dictionary update sequence element has the wrong length")
  | VNone | VBool _ | VInt _ | VFloat _ => Raised TypeError
  end.

Definition update_pair (element : PyVal) : exec CustomDict unit :=
  match as_pair element with
  | Returned (k, v) =>
      if hashable k then modify (fun d => custom_set d k v) else raise TypeError
  | Raised e => raise e
  end.

Definition chars (s : string) : list PyVal :=
  map (fun c => VStr (String c EmptyString)) (list_ascii_of_string s).

(** [d.update(other)], the built-in of [dict]: a mapping gives its items, any
    other iterable is read as a sequence of pairs, one element after the
    other. *)
Definition custom_update (other : PyVal) : exec CustomDict unit :=
  match other with
  | VDict items =>
      for_each items (fun item =>
        modify (fun d => custom_set d (VStr (fst item)) (snd item)))
  | VList l | VTuple l => for_each l update_pair
  | VStr s => for_each (chars s) update_pair
  | VNone | VBool _ | VInt _ | VFloat _ => raise TypeError
  end.

Record DefaultConfig : Type := mkDefaultConfig {
  _detector : DataObject;
  _analyzer : DataObject;
  _render : DataObject;
  _window : DataObject;
  _colors : DataObject;
  _custom : CustomDict
}.

(** [DefaultConfig()] *)
Definition new : DefaultConfig :=
  {| _detector := DetectorConfig;
     _analyzer := AnalyzerConfig;
     _render := RenderConfig;
     _window := WindowConfig;
     _colors := ColorConfig;
     _custom := [] |}.

Definition sections : list string :=
  ["detector"; "analyzer"; "render"; "window"; "colors"].

(** [getattr(self, f'_{section}', None)] when it is one of the five
    dataclass instances.  [_custom] is a [dict], which has no instance
    attribute, and the attributes of the class are not modelled: both give
    [None] here. *)
Definition section_obj (self : DefaultConfig) (section : string)
    : option DataObject :=
  if section =? "detector" then Some (_detector self)
  else if section =? "analyzer" then Some (_analyzer self)
  else if section =? "render" then Some (_render self)
  else if section =? "window" then Some (_window self)
  else if section =? "colors" then Some (_colors self)
  else None.

(** The object of a section is mutated in place. *)
Definition with_section (self : DefaultConfig) (section : string)
    (obj : DataObject) : DefaultConfig :=
  {| _detector := if section =? "detector" then obj else _detector self;
     _analyzer := if section =? "analyzer" then obj else _analyzer self;
     _render := if section =? "render" then obj else _render self;
     _window := if section =? "window" then obj else _window self;
     _colors := if section =? "colors" then obj else _colors self;
     _custom := _custom self |}.

Definition with_custom (self : DefaultConfig) (d : CustomDict)
    : DefaultConfig :=
  {| _detector := _detector self;
     _analyzer := _analyzer self;
     _render := _render self;
     _window := _window self;
     _colors := _colors self;
     _custom := d |}.

(** [s.split(sep)] for a separator of one character. *)
Fixpoint split (sep : ascii) (s : string) : list string :=
  match s with
  | EmptyString => [EmptyString]
  | String c rest =>
      if Ascii.eqb c sep then EmptyString :: split sep rest
      else
        match split sep rest with
        | part :: parts => String c part :: parts
        | [] => [String c EmptyString]
        end
  end.

Definition set (self : DefaultConfig) (key : string) (value : PyVal)
    : DefaultConfig :=
  let parts := split "." key in
  match parts with
  | [] | [_] => with_custom self (custom_set (_custom self) (VStr key) value)
  | section :: attr :: _ =>
      match section_obj self section with
      | Some obj =>
          if hasattr obj attr
          then with_section self section (setattr obj attr value)
          else self
      | None => self
      end
  end.

(** *** Operations of Python on a value of a document *)

(** [s in t] for two strings. *)
Definition substring (s t : string) : bool :=
  match String.index 0 s t with
  | Some _ => true
  | None => false
  end.

(** [key in data] for a string [key]: a dictionary is asked for the key, a
    list for an element equal to it, a string for a substring, and the other
    values are not containers. *)
Definition py_in (key : string) (data : PyVal) : outcome bool :=
  match data with
  | VDict d => Returned (PyDict.contains d key)
  | VList l | VTuple l =>
      Returned (existsb (fun element => key_eqb element (VStr key)) l)
  | VStr s => Returned (substring key s)
  | VNone | VBool _ | VInt _ | VFloat _ => Raised TypeError
  end.

(** [data[key]] for a string [key]. *)
Definition py_getitem (data : PyVal) (key : string) : outcome PyVal :=
  match data with
  | VDict d =>
      match PyDict.get d key with
      | Some v => Returned v
      | None => Raised (OtherError "KeyError")
      end
  | _ => Raised TypeError
  end.

(** [value.items()] *)
Definition py_items (value : PyVal) : outcome (list (string * PyVal)) :=
  match value with
  | VDict d => Returned (PyDict.items d)
  | _ => Raised AttributeError
  end.

(** [tuple(v) if isinstance(v, list) else v] *)
Definition tuple_if_list (v : PyVal) : PyVal :=
  match v with
  | VList l => VTuple l
  | _ => v
  end.

(** One of the five blocks of [from_dict]:
    [if section in data: for k, v in data[section].items(): ...], where the
    colour section stores [convert v] and the others [v]. *)
Definition load_section (data : PyVal) (section : string)
    (convert : PyVal -> PyVal) : exec DefaultConfig unit :=
  (present <- lift (py_in section data) ;;
   if present : bool then
     value <- lift (py_getitem data section) ;;
     items <- lift (py_items value) ;;
     for_each items (fun item =>
       modify (fun self =>
         match section_obj self section with
         | Some obj =>
             if hasattr obj (fst item)
             then with_section self section
                    (setattr obj (fst item) (convert (snd item)))
             else self
         | None => self
         end))
   else ret tt)%exec.

(** [if 'custom' in data: self._custom.update(data['custom'])] *)
Definition load_custom (data : PyVal) : exec DefaultConfig unit :=
  (present <- lift (py_in "custom" data) ;;
   if present : bool then
     value <- lift (py_getitem data "custom") ;;
     fun self =>
       let '(result, d) := custom_update value (_custom self) in
       (result, with_custom self d)
   else ret tt)%exec.

Definition from_dict (data : PyVal) : exec DefaultConfig unit :=
  (load_section data "detector" (fun v => v) ;;;
   load_section data "analyzer" (fun v => v) ;;;
   load_section data "render" (fun v => v) ;;;
   load_section data "window" (fun v => v) ;;;
   load_section data "colors" tuple_if_list ;;;
   load_custom data)%exec.

(** What [load_from_file] finds at a path. *)
Inductive file_state : Type :=
| Missing                  (* [path.exists()] is false *)
| Unreadable (e : exn)     (* [open] raises *)
| Malformed (e : exn)      (* [json.load] raises *)
| Document (data : PyVal). (* [json.load] returns [data] *)

Definition load_from_file (fs : string -> file_state) (file_path : string)
    (self : DefaultConfig) : bool * DefaultConfig :=
  match fs file_path with
  | Missing => (false, self)
  | Unreadable e => (false, self)
  | Malformed e => (false, self)
  | Document data =>
      match from_dict data self with
      | (Returned _, self) => (true, self)
      | (Raised e, self) => (false, self)
      end
  end.

(** *** [get] *)

(** [self._custom.get(key)] *)
Fixpoint custom_get (d : CustomDict) (k : PyVal) : option PyVal :=
  match d with
  | [] => None
  | (k', v) :: rest => if key_eqb k' k then Some v else custom_get rest k
  end.

(** What [get] returns: a value, the object of a section, the dictionary
    [_custom], or what an attribute holds that an object has from its class,
    given by the names that lead to it from the configuration. *)
Inductive Got : Type :=
| Value (v : PyVal)
| SectionObject (obj : DataObject)
| CustomObject (d : CustomDict)
| Inherited (path : list string).

Section WithClassAttributes.

(** The attributes that objects have from their classes, which [hasattr]
    finds after the instance attributes.  [inherited [name]] tells whether
    the class of the configuration has an attribute [name];
    [inherited [name; attr]], whether the object that
    [getattr(self, name)] gives is not [None] and has [attr] from its
    class. *)
Variable inherited : list string -> bool.

Definition get (self : DefaultConfig) (key : string) (default : PyVal)
    : Got :=
  let parts := split "." key in
  match parts with
  | [] | [_] =>
      match section_obj self key with
      | Some obj => SectionObject obj
      | None =>
          if key =? "custom" then CustomObject (_custom self)
          else if inherited ["_" ++ key] then Inherited ["_" ++ key]
          else
            match custom_get (_custom self) (VStr key) with
            | Some value => Value value
            | None => Value default
            end
      end
  | section :: attr :: _ =>
      match section_obj self section with
      | Some obj =>
          match PyDict.get obj attr with
          | Some value => Value value
          | None =>
              if inherited ["_" ++ section; attr]
              then Inherited ["_" ++ section; attr]
              else Value default
          end
      | None =>
          if ((section =? "custom") || inherited ["_" ++ section])
             && inherited ["_" ++ section; attr]
          then Inherited ["_" ++ section; attr]
          else Value default
      end
  end.

End WithClassAttributes.

(** *** Vocabulary of the statements about the configuration *)

(** What a key addresses: an entry of the custom dictionary, or a field of a
    section. *)
Definition address (key : string) : string * option string :=
  match split "." key with
  | [] | [_] => (key, None)
  | section :: attr :: _ => (section, Some attr)
  end.





(** No class attribute is in reach. *)
Definition nothing_inherited (path : list string) : bool := false.

(** The string has no dot. *)
Definition no_dot (s : string) : bool :=
  forallb (fun c => negb (Ascii.eqb c ".")) (list_ascii_of_string s).

(** The object of the section has the attribute. *)
Definition has_field (self : DefaultConfig) (section attr : string) : bool :=
  match section_obj self section with
  | Some obj => hasattr obj attr
  | None => false
  end.



End Config.

(** ** [src/deps/mediapipe_heavy_detector.py] *)

Module Detector.

Local Open Scope string_scope.

(** A [vision.PoseLandmarker], with the delegate it was created for. *)
Inductive PoseLandmarker : Type :=
| Landmarker (gpu_delegate : bool).

Record MediaPipeHeavyDetector : Type := mkDetector {
  _model_path : string;
  _min_detection_confidence : R;
  _min_tracking_confidence : R;
  _use_gpu : bool;
  _detector : option PoseLandmarker;
  _analyzer : option Analyzer.DefaultAnalyzer
}.

(** [MediaPipeHeavyDetector()] *)
Definition new : MediaPipeHeavyDetector :=
  {| _model_path := "models/pose_landmarker_heavy.task";
     _min_detection_confidence := 1/2;
     _min_tracking_confidence := 1/2;
     _use_gpu := true;
     _detector := None;
     _analyzer := None |}.

(** The machine the detector runs on: whether [_ensure_model_downloaded]
    returns for a model path, and whether
    [vision.PoseLandmarker.create_from_options] returns for the GPU
    delegate ([true]) and for the CPU delegate ([false]). *)
Record Machine : Type := mkMachine {
  model_downloaded : string -> bool;
  landmarker_created : bool -> bool
}.

Section OnMachine.

Variable machine : Machine.

(** The body of the [try] block of [initialize]: the landmarker, or
    [None] when an exception is raised. *)
Definition try_create (model_path : string) (use_gpu : bool)
    : option PoseLandmarker :=
  if model_downloaded machine model_path then
    let delegate := use_gpu in
    if landmarker_created machine delegate
    then Some (Landmarker delegate)
    else None
  else None.

(** [initialize] gives the boolean it returns, the detector after the call
    and the delegates it has tried, in order. *)
Equations initialize (self : MediaPipeHeavyDetector)
    : bool * MediaPipeHeavyDetector * list bool
    by wf (if _use_gpu self then 1 else 0)%nat lt :=
  initialize (mkDetector path dc tc true det an)
    with try_create path true => {
      | Some d => (true, mkDetector path dc tc true (Some d) an, [true]);
      | None =>
          let r := initialize (mkDetector path dc tc false det an) in
          (fst (fst r), snd (fst r), true :: snd r) };
  initialize (mkDetector path dc tc false det an)
    with try_create path false => {
      | Some d => (true, mkDetector path dc tc false (Some d) an, [false]);
      | None => (false, mkDetector path dc tc false det an, [false]) }.

End OnMachine.

End Detector.

(** ** [src/deps/deps.py], one caller at a time *)

Module Deps.

Local Open Scope string_scope.

(** The objects the container hands out. *)
Inductive Instance : Type :=
| DetectorObject (d : Detector.MediaPipeHeavyDetector)
| AnalyzerObject (a : Analyzer.DefaultAnalyzer)
| ConfigObject (c : Config.DefaultConfig).

(** A registered class: its [__name__] and what calling it without argument
    gives. *)
Record Cls : Type := mkCls {
  __name__ : string;
  call : outcome Instance
}.

Definition MediaPipeHeavyDetector : Cls :=
  {| __name__ := "MediaPipeHeavyDetector";
     call := Returned (DetectorObject Detector.new) |}.

Definition DefaultAnalyzer : Cls :=
  {| __name__ := "DefaultAnalyzer";
     call := Returned (AnalyzerObject Analyzer.new) |}.

Definition DefaultConfig : Cls :=
  {| __name__ := "DefaultConfig";
     call := Returned (ConfigObject Config.new) |}.

(** [hasattr(instance, 'initialize')] *)
Definition has_initialize (instance : Instance) : bool :=
  match instance with
  | DetectorObject _ => true
  | _ => false
  end.

(** A [LazyInstance]: [_factory] is the closure of [_create_lazy_instance],
    given by the category and the name it has captured.  The lock is left
    out: this module runs one call after the other. *)
Record LazyInstance : Type := mkLazyInstance {
  _factory : string * string;
  _instance : option Instance
}.

(** The container, and the delegates for which the creation of a landmarker
    has been tried since the start, oldest first. *)
Record Deps : Type := mkDeps {
  _registry : Registry.Registry Cls;
  _instances : PyDict.t LazyInstance;
  _current_selections : PyDict.t (option string);
  attempts : list bool
}.

Section OnMachine.

Variable machine : Detector.Machine.
Variable import_class : string -> string -> outcome (option Cls).

(** The container after [__init__], once [_auto_register] has filled the
    registry. *)
Definition new (registry : Registry.Registry Cls) : Deps :=
  {| _registry := registry;
     _instances := PyDict.empty;
     _current_selections :=
       [("detector", None); ("analyzer", None); ("config", None)];
     attempts := [] |}.

Definition with_registry (self : Deps) (r : Registry.Registry Cls) : Deps :=
  {| _registry := r;
     _instances := _instances self;
     _current_selections := _current_selections self;
     attempts := attempts self |}.

Definition with_instances (self : Deps) (d : PyDict.t LazyInstance) : Deps :=
  {| _registry := _registry self;
     _instances := d;
     _current_selections := _current_selections self;
     attempts := attempts self |}.

Definition with_selection (self : Deps) (category name : string) : Deps :=
  {| _registry := _registry self;
     _instances := _instances self;
     _current_selections :=
       PyDict.set (_current_selections self) category (Some name);
     attempts := attempts self |}.

Definition with_attempts (self : Deps) (tried : list bool) : Deps :=
  {| _registry := _registry self;
     _instances := _instances self;
     _current_selections := _current_selections self;
     attempts := attempts self ++ tried |}.

(** A method of the registry, run on [self._registry]. *)
Definition on_registry {A : Type} (m : exec (Registry.Registry Cls) A)
    : exec Deps A :=
  fun self =>
    let '(result, r) := m (_registry self) in (result, with_registry self r).

Definition _get_instance_key (category name : string) : string :=
  category ++ "." ++ name.

(** [instance.initialize()], whose result the container drops. *)
Definition run_initialize (instance : Instance) : exec Deps Instance :=
  match instance with
  | DetectorObject d =>
      fun self =>
        let '(_, d', tried) := Detector.initialize machine d in
        (Returned (DetectorObject d'), with_attempts self tried)
  | _ => ret instance
  end.

(** The closure [factory] of [_create_lazy_instance]. *)
Definition factory (category name : string) : exec Deps Instance :=
  (cls <- on_registry (Registry.get import_class category name) ;;
   match cls with
   | None => raise (ValueError ("未找到组件: " ++ category ++ "." ++ name))
   | Some cls =>
       instance <- lift (call cls) ;;
       if (category =? "detector") && has_initialize instance
       then run_initialize instance
       else ret instance
   end)%exec.

Definition _create_lazy_instance (category name : string) : LazyInstance :=
  {| _factory := (category, name); _instance := None |}.

(** [self._instances[key].get()]: the check of [LazyInstance.get], and
    under it the call of the factory and the assignment to [_instance]. *)
Definition lazy_get (key : string) : exec Deps Instance :=
  fun self =>
    match PyDict.get (_instances self) key with
    | None => (Raised (OtherError "KeyError"), self)
    | Some handle =>
        match _instance handle with
        | Some instance => (Returned instance, self)
        | None =>
            match factory (fst (_factory handle)) (snd (_factory handle))
                    self with
            | (Returned instance, self) =>
                (Returned instance,
                 with_instances self
                   (PyDict.set (_instances self) key
                      {| _factory := _factory handle;
                         _instance := Some instance |}))
            | (Raised e, self) => (Raised e, self)
            end
        end
    end.

(** The common body of [get_detector], [get_analyzer] and [get_config];
    [message] is the text of the error of the category. *)
Definition get_component (category message : string) (name : option string)
    : exec Deps Instance :=
  (name <- match name with
           | None => gets (fun self => pyget (_current_selections self) category)
           | Some name => ret (Some name)
           end ;;
   name <- match name with
           | None =>
               cls <- on_registry (Registry.get_default import_class category) ;;
               match cls with
               | None => raise (ValueError message)
               | Some cls => ret (__name__ cls)
               end
           | Some name => ret name
           end ;;
   let key := _get_instance_key category name in
   modify (fun self =>
             if PyDict.contains (_instances self) key then self
             else with_instances self
                    (PyDict.set (_instances self) key
                       (_create_lazy_instance category name))) ;;;
   lazy_get key)%exec.

Definition get_detector : option string -> exec Deps Instance :=
  get_component "detector" "没有可用的检测器".

Definition get_analyzer : option string -> exec Deps Instance :=
  get_component "analyzer" "没有可用的分析器".

Definition get_config : option string -> exec Deps Instance :=
  get_component "config" "没有可用的配置".

(** The common body of [select_detector], [select_analyzer] and
    [select_config]. *)
Definition select (category message name : string) : exec Deps unit :=
  (cls <- on_registry (Registry.get import_class category name) ;;
   match cls with
   | None => raise (ValueError (message ++ name))
   | Some _ => modify (fun self => with_selection self category name)
   end)%exec.

Definition select_detector : string -> exec Deps unit :=
  select "detector" "未找到检测器: ".

(** [LazyInstance.reset] *)
Definition reset (handle : LazyInstance) : LazyInstance :=
  {| _factory := _factory handle; _instance := None |}.

Definition reset_instance (self : Deps) (category name : string) : Deps :=
  let key := _get_instance_key category name in
  match PyDict.get (_instances self) key with
  | Some handle =>
      with_instances self (PyDict.set (_instances self) key (reset handle))
  | None => self
  end.

Definition reset_all (self : Deps) : Deps :=
  with_instances self
    (map (fun entry => (fst entry, reset (snd entry))) (_instances self)).

End OnMachine.

(** *** Vocabulary of the statements about the container *)

(** A machine on which no landmarker can be created, with either delegate. *)
Definition no_landmarker : Detector.Machine :=
  {| Detector.model_downloaded := fun _ => true;
     Detector.landmarker_created := fun _ => false |}.

(** A machine on which the GPU delegate fails and the CPU delegate works. *)
Definition cpu_only : Detector.Machine :=
  {| Detector.model_downloaded := fun _ => true;
     Detector.landmarker_created := fun delegate => negb delegate |}.

(** A class whose constructor raises. *)
Definition Broken : Cls :=
  {| __name__ := "Broken"; call := Raised (OtherError "RuntimeError") |}.

(** The registry after the discovery of the heavy detector, registered under
    the name its [name] property gives. *)
Definition heavy_registry : Registry.Registry Cls :=
  Registry.register Registry.new "detector" "MediaPipe-Heavy"
    MediaPipeHeavyDetector "MediaPipe Heavy 姿态检测器 - 重量级模型，精度最高" false.

Definition broken_registry : Registry.Registry Cls :=
  Registry.register Registry.new "detector" "Broken" Broken "" false.

End Deps.

(** ** [src/deps/deps.py], several callers at once

    Threads run [get_detector] on one container, from the point where
    the key of the instance is known.  A thread is at one of the program
    points below, and the scheduler lets one thread take one step at a time.
    Objects are known by their address: a [LazyInstance] by its index in the
    heap, a constructed instance by the number of factory calls made before
    its own.  The factory is taken to return. *)

Module Threads.

Inductive pc : Type :=
| CheckKey                (* [if key not in self._instances] *)
| Store                   (* [self._instances[key] = self._create_lazy_instance(..)] *)
| Lookup                  (* [self._instances[key]] *)
| FirstCheck (h : nat)    (* [if self._instance is None], without the lock *)
| Acquire (h : nat)       (* [with self._lock] *)
| SecondCheck (h : nat)   (* [if self._instance is None], under the lock *)
| Construct (h : nat)     (* [self._instance = self._factory()] *)
| Release (h : nat)       (* the end of the [with] block *)
| Return (h : nat)        (* [return self._instance] *)
| Done (result : option nat).

(** A [LazyInstance] of the heap. *)
Record Handle : Type := mkHandle {
  _instance : option nat;
  _lock : bool
}.

Record State : Type := mkState {
  _instances : PyDict.t nat;
  heap : list Handle;
  factory_calls : nat;
  threads : list pc
}.

Fixpoint update {A : Type} (l : list A) (i : nat) (a : A) : list A :=
  match l, i with
  | [], _ => []
  | _ :: rest, O => a :: rest
  | b :: rest, S i => b :: update rest i a
  end.

Definition handle_at (s : State) (h : nat) : Handle :=
  nth h (heap s) (mkHandle None false).

(** One step of the thread at program point [p]: the state of the container
    and the next program point.  A thread that waits for a lock, or that has
    returned, stays where it is. *)
Definition step_at (key : string) (p : pc) (s : State) : State * pc :=
  match p with
  | CheckKey =>
      (s, if PyDict.contains (_instances s) key then Lookup else Store)
  | Store =>
      ({| _instances := PyDict.set (_instances s) key (length (heap s));
          heap := heap s ++ [mkHandle None false];
          factory_calls := factory_calls s;
          threads := threads s |}, Lookup)
  | Lookup =>
      match PyDict.get (_instances s) key with
      | Some h => (s, FirstCheck h)
      | None => (s, Done None)
      end
  | FirstCheck h =>
      match _instance (handle_at s h) with
      | None => (s, Acquire h)
      | Some _ => (s, Return h)
      end
  | Acquire h =>
      if _lock (handle_at s h) then (s, Acquire h)
      else
        ({| _instances := _instances s;
            heap := update (heap s) h (mkHandle (_instance (handle_at s h)) true);
            factory_calls := factory_calls s;
            threads := threads s |}, SecondCheck h)
  | SecondCheck h =>
      match _instance (handle_at s h) with
      | None => (s, Construct h)
      | Some _ => (s, Release h)
      end
  | Construct h =>
      ({| _instances := _instances s;
          heap := update (heap s) h
                    (mkHandle (Some (factory_calls s)) (_lock (handle_at s h)));
          factory_calls := S (factory_calls s);
          threads := threads s |}, Release h)
  | Release h =>
      ({| _instances := _instances s;
          heap := update (heap s) h (mkHandle (_instance (handle_at s h)) false);
          factory_calls := factory_calls s;
          threads := threads s |}, Return h)
  | Return h => (s, Done (_instance (handle_at s h)))
  | Done result => (s, Done result)
  end.

(** The scheduler runs thread [tid] for one step. *)
Definition step (key : string) (s : State) (tid : nat) : State :=
  match nth_error (threads s) tid with
  | None => s
  | Some p =>
      let '(s', p') := step_at key p s in
      {| _instances := _instances s';
         heap := heap s';
         factory_calls := factory_calls s';
         threads := update (threads s') tid p' |}
  end.

Definition run (key : string) (schedule : list nat) (s : State) : State :=
  fold_left (step key) schedule s.

(** Two callers enter [get_detector] on a container without instance. *)
Definition two_callers : State :=
  {| _instances := PyDict.empty;
     heap := [];
     factory_calls := 0;
     threads := [CheckKey; CheckKey] |}.


(** *** Vocabulary of the statements about threads *)

(** A schedule in which both callers test the key before either stores its
    handle: the first caller then runs to its end, and the second one after
    it. *)
Definition racing_schedule : list nat :=
  [0; 1; 0; 0; 0; 0; 0; 0; 0; 0; 1; 1; 1; 1; 1; 1; 1; 1].

(** A schedule in which the first caller returns before the second one
    starts. *)
Definition sequential_schedule : list nat :=
  [0; 0; 0; 0; 0; 0; 0; 0; 0; 1; 1; 1; 1].





End Threads.

(** * Properties *)

(** ** Dictionaries *)

Section PyDictFacts.
Variable V : Type.
Implicit Types (d : PyDict.t V) (k : string) (v : V).

Lemma mem_In k (l : list string) : PyDict.mem k l = true <-> In k l.
Proof.
  induction l as [|k' l IH]; simpl.
  - split; [discriminate | tauto].
  - rewrite orb_true_iff, IH, String.eqb_eq. tauto.
Qed.

Lemma nodupb_NoDup (l : list string) : PyDict.nodupb l = true <-> NoDup l.
Proof.
  induction l as [|k l IH]; simpl.
  - split; [constructor | reflexivity].
  - rewrite andb_true_iff, negb_true_iff, IH. split.
    + intros [Hm Hl]. constructor; [|exact Hl].
      intro Hin. apply mem_In in Hin. congruence.
    + intro H. inversion H as [|? ? Hn Hl]; subst. split; [|exact Hl].
      destruct (PyDict.mem k l) eqn:E; [|reflexivity].
      apply mem_In in E. contradiction.
Qed.

Lemma get_set_same d k v : PyDict.get (PyDict.set d k v) k = Some v.
Proof.
  induction d as [|[k' v'] d IH]; simpl.
  - now rewrite String.eqb_refl.
  - destruct (String.eqb k' k) eqn:E; simpl; now rewrite E.
Qed.

Lemma get_set_other d k k' v :
  k <> k' -> PyDict.get (PyDict.set d k v) k' = PyDict.get d k'.
Proof.
  intro Hne. induction d as [|[k0 v0] d IH]; simpl.
  - destruct (String.eqb k k') eqn:E; [|reflexivity].
    apply String.eqb_eq in E. contradiction.
  - destruct (String.eqb k0 k) eqn:E; simpl.
    + apply String.eqb_eq in E. subst k0.
      destruct (String.eqb k k') eqn:E'; [|reflexivity].
      apply String.eqb_eq in E'. contradiction.
    + now rewrite IH.
Qed.

Lemma get_mem d k :
  PyDict.contains d k = PyDict.mem k (PyDict.keys d).
Proof.
  unfold PyDict.contains.
  induction d as [|[k' v'] d IH]; simpl; [reflexivity|].
  destruct (String.eqb k' k); [reflexivity | exact IH].
Qed.

Lemma set_fresh d k v :
  PyDict.mem k (PyDict.keys d) = false -> PyDict.set d k v = d ++ [(k, v)].
Proof.
  induction d as [|[k' v'] d IH]; simpl; [reflexivity|].
  intro H. apply orb_false_iff in H. destruct H as [E H].
  rewrite E, IH by exact H. reflexivity.
Qed.

Lemma keys_set d k v :
  PyDict.keys (PyDict.set d k v)
  = if PyDict.mem k (PyDict.keys d) then PyDict.keys d
    else PyDict.keys d ++ [k].
Proof.
  induction d as [|[k' v'] d IH]; simpl; [reflexivity|].
  destruct (String.eqb k' k) eqn:E; simpl; [reflexivity|].
  rewrite IH. now destruct (PyDict.mem k (PyDict.keys d)).
Qed.

Lemma get_In d k v :
  PyDict.wf d -> In (k, v) d -> PyDict.get d k = Some v.
Proof.
  unfold PyDict.wf.
  induction d as [|[k' v'] d IH]; simpl; [tauto|].
  intros Hwf [Heq | Hin].
  - inversion Heq; subst. now rewrite String.eqb_refl.
  - apply andb_true_iff in Hwf. destruct Hwf as [Hm Hwf].
    destruct (String.eqb k' k) eqn:E.
    + apply String.eqb_eq in E. subst k'.
      apply negb_true_iff in Hm.
      assert (PyDict.mem k (PyDict.keys d) = true) as Hk.
      { apply mem_In. change k with (fst (k, v)). now apply in_map. }
      congruence.
    + now apply IH.
Qed.

End PyDictFacts.

(** ** The analyzer *)

Section AnalyzerFacts.

Import Models Analyzer.
Local Open Scope R_scope.

Variable self : DefaultAnalyzer.

Lemma Rleb_le a b : Rleb a b = true <-> a <= b.
Proof. unfold Rleb. destruct (Rle_dec a b); split; intros; easy. Qed.

Lemma Rltb_lt a b : Rltb a b = true <-> a < b.
Proof. unfold Rltb. destruct (Rlt_dec a b); split; intros; easy. Qed.

(** The first loop of [compare_poses], once some names are done: the
    names left to do are new keys, appended in their order. *)
Lemma angle_matches_loop pose1 pose2 t (f := fun name => (name, verdict self pose1 pose2 t name)) :
  forall (names : list string) (acc : PyDict.t bool),
    PyDict.nodupb names = true ->
    (forall name, In name names -> PyDict.mem name (PyDict.keys acc) = false) ->
    fold_left
      (fun angle_matches name =>
         let '(matched, _) :=
           compare_angles self (pyget (angles pose1) name)
             (pyget (angles pose2) name) (Some t) in
         PyDict.set angle_matches name matched)
      names acc
    = acc ++ map f names.
Proof.
  induction names as [|name names IH]; intros acc Hnd Hfresh; simpl.
  - now rewrite app_nil_r.
  - simpl in Hnd. apply andb_true_iff in Hnd. destruct Hnd as [Hn Hnd].
    apply negb_true_iff in Hn.
    destruct (compare_angles self (pyget (angles pose1) name)
                (pyget (angles pose2) name) (Some t)) as [matched diff] eqn:E.
    rewrite set_fresh by (apply Hfresh; now left).
    rewrite IH; [| exact Hnd |].
    + rewrite <- app_assoc. simpl. unfold f at 2, verdict. now rewrite E.
    + intros name' Hin. unfold PyDict.keys. rewrite map_app. simpl.
      destruct (PyDict.mem name' (map fst acc ++ [name])) eqn:Hm;
        [|reflexivity].
      apply mem_In in Hm. apply in_app_or in Hm. destruct Hm as [Hm | Hm].
      * apply mem_In in Hm. unfold PyDict.keys in Hfresh.
        rewrite Hfresh in Hm by (now right). discriminate.
      * simpl in Hm. destruct Hm as [-> | []].
        apply mem_In in Hin. congruence.
Qed.

Lemma angle_matches_wf pose1 pose2 t :
  PyDict.wf (angles pose1) ->
  angle_matches self pose1 pose2 t
  = map (fun name => (name, verdict self pose1 pose2 t name))
        (PyDict.keys (angles pose1)).
Proof.
  intro Hwf. unfold angle_matches.
  rewrite angle_matches_loop; [reflexivity | exact Hwf |].
  intros. reflexivity.
Qed.

(** Without the hypothesis on the keys: the entry of a name. *)
Lemma angle_matches_get pose1 pose2 t name :
  PyDict.get (angle_matches self pose1 pose2 t) name
  = angle_verdict self pose1 pose2 t name.
Proof.
  unfold angle_matches, angle_verdict.
  assert (forall names acc,
    PyDict.get
      (fold_left
         (fun angle_matches name =>
            let '(matched, _) :=
              compare_angles self (pyget (angles pose1) name)
                (pyget (angles pose2) name) (Some t) in
            PyDict.set angle_matches name matched)
         names acc) name
    = if PyDict.mem name names
      then Some (verdict self pose1 pose2 t name)
      else PyDict.get acc name) as H.
  { induction names as [|n names IH]; intro acc; simpl; [reflexivity|].
    rewrite IH.
    destruct (PyDict.mem name names) eqn:Hm.
    - now rewrite orb_true_r.
    - rewrite orb_false_r.
      destruct (compare_angles self (pyget (angles pose1) n)
                  (pyget (angles pose2) n) (Some t)) as [matched diff] eqn:E.
      destruct (String.eqb n name) eqn:En.
      + apply String.eqb_eq in En. subst n.
        rewrite get_set_same. unfold verdict. now rewrite E.
      + apply get_set_other. intro. subst n.
        rewrite String.eqb_refl in En. discriminate. }
  rewrite H. now destruct (PyDict.mem name (PyDict.keys (angles pose1))).
Qed.

Lemma sum_bool_count (l : list bool) :
  sum_bool l = length (filter (fun b => b) l).
Proof.
  unfold sum_bool.
  assert (forall l n, fold_left (fun acc b => (acc + Nat.b2n b)%nat) l n
                      = (n + length (filter (fun b => b) l))%nat) as H.
  { clear l. induction l as [|b l IH]; intro n; simpl; [lia|].
    rewrite IH. destruct b; simpl; lia. }
  now rewrite H.
Qed.

Lemma valid_angles_wf pose1 pose2 t :
  PyDict.wf (angles pose1) ->
  valid_angles pose1 (angle_matches self pose1 pose2 t)
  = map (verdict self pose1 pose2 t) (present_names pose1).
Proof.
  intro Hwf. rewrite angle_matches_wf by exact Hwf.
  unfold valid_angles, present_names, PyDict.items, present.
  induction (PyDict.keys (angles pose1)) as [|name names IH]; simpl;
    [reflexivity|].
  destruct (pyget (angles pose1) name); simpl; now rewrite IH.
Qed.

Lemma length_filter_map {A : Type} (f : A -> bool) (l : list A) :
  length (filter (fun b : bool => b) (map f l)) = length (filter f l).
Proof.
  induction l as [|a l IH]; simpl; [reflexivity|].
  destruct (f a); simpl; now rewrite IH.
Qed.

End AnalyzerFacts.

(** C1.  For every pair of poses with well-formed angle dictionaries and
    every threshold (given, or the analyzer's own), the overall ratio that
    [compare_poses] returns is the number of matched angles among the angle
    names whose reference value is present, divided by the number of angle
    names whose reference value is present; the names whose reference value
    is absent count in neither; and the ratio is [0] when no reference value
    is present. *)
Theorem compare_poses_ratio :
  forall (self : Analyzer.DefaultAnalyzer) (pose1 pose2 : Models.PoseData)
         (threshold : option R),
    PyDict.wf (Models.angles pose1) ->
    let t := Analyzer.threshold_or_default self threshold in
    snd (Analyzer.compare_poses self pose1 pose2 threshold)
    = match length (Analyzer.present_names pose1) with
      | O => 0%R
      | S _ =>
          (INR (length (Analyzer.matched_names self pose1 pose2 t))
           / INR (length (Analyzer.present_names pose1)))%R
      end.
Proof.
  intros self pose1 pose2 threshold Hwf t.
  unfold Analyzer.compare_poses. fold t. cbn [snd].
  rewrite valid_angles_wf by exact Hwf.
  rewrite sum_bool_count, length_filter_map, length_map.
  unfold Analyzer.matched_names.
  destruct (Analyzer.present_names pose1) as [|name names]; reflexivity.
Qed.

Lemma compare_poses_ratio_witness :
  PyDict.wf (Models.angles Analyzer.elbow_reference)
  /\ snd (Analyzer.compare_poses Analyzer.new Analyzer.elbow_reference
            Analyzer.elbow_candidate (Some 15%R))
     = match length (Analyzer.present_names Analyzer.elbow_reference) with
       | O => 0%R
       | S _ =>
           (INR (length (Analyzer.matched_names Analyzer.new
                           Analyzer.elbow_reference Analyzer.elbow_candidate
                           15))
            / INR (length (Analyzer.present_names Analyzer.elbow_reference)))%R
       end.
Proof.
  split.
  - reflexivity.
  - apply (compare_poses_ratio Analyzer.new Analyzer.elbow_reference
             Analyzer.elbow_candidate (Some 15%R)).
    reflexivity.
Defined.

(** C2.  For every pair of optional angles and every threshold:
    [compare_angles] returns [(true, 0)] when one of the angles is absent,
    and otherwise [(diff <= threshold, diff)] with [diff = |a - b|], the
    bound included, so that 100 against 115 with threshold 15 is a match
    with difference 15. *)
Theorem compare_angles_spec :
  forall (self : Analyzer.DefaultAnalyzer) (t : R),
    (forall b, Analyzer.compare_angles self None b (Some t) = (true, 0%R))
    /\ (forall a, Analyzer.compare_angles self a None (Some t) = (true, 0%R))
    /\ (forall a b : R,
          Analyzer.compare_angles self (Some a) (Some b) (Some t)
          = (Analyzer.Rleb (Rabs (a - b)) t, Rabs (a - b))
          /\ (fst (Analyzer.compare_angles self (Some a) (Some b) (Some t)) = true
              <-> (Rabs (a - b) <= t)%R))
    /\ Analyzer.compare_angles self (Some 100%R) (Some 115%R) (Some 15%R)
       = (true, 15%R).
Proof.
  intros self t. repeat split.
  - intros [a|]; reflexivity.
  - simpl. apply Rleb_le.
  - simpl. apply Rleb_le.
  - unfold Analyzer.compare_angles. simpl.
    replace (Rabs (100 - 115))%R with 15%R.
    + f_equal. apply Rleb_le. lra.
    + unfold Rabs. destruct (Rcase_abs (100 - 115)); lra.
Qed.

Lemma forallb_pointwise {A : Type} (f g : A -> bool) (l : list A) :
  (forall a, f a = g a) -> forallb f l = forallb g l.
Proof.
  intro H. induction l as [|a l IH]; simpl; [reflexivity|].
  now rewrite H, IH.
Qed.

(** The table of limbs, read by the second loop of [compare_poses]. *)
Lemma limb_matches_table (angle_matches : PyDict.t bool) :
  Analyzer.limb_matches angle_matches
  = map (fun entry =>
           (fst entry,
            Analyzer.limb_verdict (PyDict.get angle_matches) (snd entry)))
        Constants.LIMB_TO_ANGLES.
Proof. reflexivity. Qed.

(** C7.  For every pair of poses and every threshold, [compare_poses] gives
    each limb of [LIMB_TO_ANGLES], in the order of the table, a verdict that
    is [true] when the limb has no governing angle and otherwise the
    conjunction of the verdicts of its governing angles, an angle without
    verdict counting as [true]. *)
Theorem compare_poses_limbs :
  forall (self : Analyzer.DefaultAnalyzer) (pose1 pose2 : Models.PoseData)
         (threshold : option R),
    let t := Analyzer.threshold_or_default self threshold in
    fst (Analyzer.compare_poses self pose1 pose2 threshold)
    = map (fun entry =>
             (fst entry,
              Analyzer.limb_verdict (Analyzer.angle_verdict self pose1 pose2 t)
                (snd entry)))
          Constants.LIMB_TO_ANGLES.
Proof.
  intros self pose1 pose2 threshold t.
  unfold Analyzer.compare_poses. fold t. cbn [fst].
  rewrite limb_matches_table.
  apply map_ext. intros [limb related].
  unfold Analyzer.limb_verdict. cbn [fst snd]. f_equal.
  destruct related; [reflexivity|].
  apply forallb_pointwise. intro name.
  now rewrite angle_matches_get.
Qed.

(** The scenario of the left elbow: 150 degrees against 130 with a
    threshold of 15. *)

Section ElbowScenario.

Import Models Analyzer.
Local Open Scope R_scope.

Lemma elbow_verdict :
  compare_angles Analyzer.new (Some 150) (Some 130) (Some 15)
  = (false, Rabs (150 - 130)).
Proof.
  unfold compare_angles. cbn [threshold_or_default]. f_equal.
  destruct (Rleb (Rabs (150 - 130)) 15) eqn:E; [|reflexivity].
  apply Rleb_le in E. unfold Rabs in E.
  destruct (Rcase_abs (150 - 130)); lra.
Qed.

Example elbow_scenario :
  let result :=
    compare_poses Analyzer.new elbow_reference elbow_candidate (Some 15) in
  snd result = 0
  /\ PyDict.get (fst result) "左小臂" = Some false
  /\ PyDict.get (fst result) "左大臂" = Some false
  /\ PyDict.get (fst result) "左大腿" = Some true
  /\ PyDict.get (fst result) "躯干上" = Some true.
Proof.
  cbv zeta. unfold compare_poses, Analyzer.angle_matches.
  cbn [elbow_reference elbow_candidate angles PyDict.keys map fst fold_left
       pyget PyDict.get String.eqb Ascii.eqb Bool.eqb threshold_or_default].
  rewrite elbow_verdict.
  repeat split. 
  cbn. lra.
Qed.
End ElbowScenario.

(** ** The angle of three points *)

Section AngleFacts.

Import Models Analyzer.
Local Open Scope R_scope.

Lemma clip_bounds a : -1 <= clip a (-1) 1 <= 1.
Proof.
  unfold clip. split.
  - apply Rmin_glb; [apply Rmax_r | lra].
  - apply Rmin_r.
Qed.

Lemma degrees_acos_bounds c : 0 <= degrees (acos c) <= 180.
Proof.
  unfold degrees.
  pose proof (acos_bound c) as [Hlo Hhi].
  pose proof PI_RGT_0 as Hpi.
  assert (0 < 180 / PI) as Hk by (apply Rdiv_lt_0_compat; lra).
  split.
  - apply Rmult_le_pos; lra.
  - replace 180 with (PI * (180 / PI)) at 2 by (field; lra).
    apply Rmult_le_compat_r; lra.
Qed.

Lemma degenerate_iff (n1 n3 : R) :
  Rltb n1 1e-6 || Rltb n3 1e-6 = true <-> n1 < 1e-6 \/ n3 < 1e-6.
Proof. now rewrite orb_true_iff, !Rltb_lt. Qed.

End AngleFacts.

(** C6.  For every three points, [calculate_angle] returns a value between
    0 and 180 degrees; it returns 0, without dividing, as soon as one of the
    two rays from the vertex is shorter than 1e-6 in the plane; and in the
    other cases it is the arc cosine, in degrees, of the normalised dot
    product clamped to the interval from -1 to 1. *)
Theorem calculate_angle_spec :
  forall (self : Analyzer.DefaultAnalyzer) (p1 vertex p3 : Models.Landmark),
    let n1 := Analyzer.norm (Analyzer.ray vertex p1) in
    let n3 := Analyzer.norm (Analyzer.ray vertex p3) in
    let cos_angle :=
      Analyzer.clip
        (Analyzer.dot (Analyzer.ray vertex p1) (Analyzer.ray vertex p3)
         / (n1 * n3)) (-1) 1 in
    (0 <= Analyzer.calculate_angle self p1 vertex p3 <= 180)%R
    /\ ((n1 < 1e-6 \/ n3 < 1e-6)%R ->
        Analyzer.calculate_angle self p1 vertex p3 = 0%R)
    /\ (~ (n1 < 1e-6 \/ n3 < 1e-6)%R ->
        (-1 <= cos_angle <= 1)%R
        /\ Analyzer.calculate_angle self p1 vertex p3
           = Analyzer.degrees (acos cos_angle)).
Proof.
  intros self p1 vertex p3 n1 n3 cos_angle.
  unfold Analyzer.calculate_angle.
  change (Models.x p1 - Models.x vertex, Models.y p1 - Models.y vertex)%R
    with (Analyzer.ray vertex p1).
  change (Models.x p3 - Models.x vertex, Models.y p3 - Models.y vertex)%R
    with (Analyzer.ray vertex p3).
  fold n1 n3. cbv zeta. fold cos_angle.
  destruct (Analyzer.Rltb n1 1e-6 || Analyzer.Rltb n3 1e-6) eqn:E.
  - apply degenerate_iff in E. repeat split; try lra.
    all: intro H; contradiction.
  - assert (~ (n1 < 1e-6 \/ n3 < 1e-6)%R) as Hn.
    { intro H. apply degenerate_iff in H. congruence. }
    split; [apply degrees_acos_bounds|].
    split; [intro H; contradiction|].
    intros _. split; [apply clip_bounds | reflexivity].
Qed.

Lemma calculate_angle_spec_witness :
  Analyzer.calculate_angle Analyzer.new
    (Models.mkLandmark 0 0 0 1) (Models.mkLandmark 0 0 0 1)
    (Models.mkLandmark 0 1 0 1) = 0%R.
Proof.
  apply (calculate_angle_spec Analyzer.new
           (Models.mkLandmark 0 0 0 1) (Models.mkLandmark 0 0 0 1)
           (Models.mkLandmark 0 1 0 1)).
  left. unfold Analyzer.norm, Analyzer.ray. simpl.
  replace ((0 - 0) * (0 - 0) + (0 - 0) * (0 - 0))%R with 0%R by lra.
  rewrite sqrt_0. lra.
Defined.

(** The angle of a right corner is 90 degrees. *)
Example calculate_angle_right_corner :
  Analyzer.calculate_angle Analyzer.new
    (Models.mkLandmark 1 0 0 1) (Models.mkLandmark 0 0 0 1)
    (Models.mkLandmark 0 1 0 1) = 90%R.
Proof.
  unfold Analyzer.calculate_angle, Analyzer.norm, Analyzer.dot. simpl.
  replace ((1 - 0) * (1 - 0) + (0 - 0) * (0 - 0))%R with 1%R by lra.
  replace ((0 - 0) * (0 - 0) + (1 - 0) * (1 - 0))%R with 1%R by lra.
  replace ((1 - 0) * (0 - 0) + (0 - 0) * (1 - 0))%R with 0%R by lra.
  rewrite sqrt_1.
  assert (Analyzer.Rltb 1 1e-6 = false) as ->.
  { destruct (Analyzer.Rltb 1 1e-6) eqn:E; [|reflexivity].
    apply Rltb_lt in E. lra. }
  simpl.
  replace (0 / (1 * 1))%R with 0%R by (field).
  unfold Analyzer.clip.
  rewrite Rmax_left by lra. rewrite Rmin_left by lra.
  rewrite acos_0. unfold Analyzer.degrees. field. apply PI_neq0.
Qed.

(** ** The similarity score *)

Section SimilarityFacts.

Import Models Analyzer.
Local Open Scope R_scope.

Lemma similarity_bounds diff : 0 < similarity diff <= 1.
Proof.
  unfold similarity. split; [apply exp_pos|].
  assert (- diff ^ 2 / (2 * 30 ^ 2) <= 0) as H.
  { assert (0 <= diff ^ 2) by (simpl; nra).
    unfold Rdiv. assert (0 < / (2 * 30 ^ 2)) by (apply Rinv_0_lt_compat; lra).
    nra. }
  destruct H as [H | H].
  - left. rewrite <- exp_0. now apply exp_increasing.
  - rewrite H, exp_0. lra.
Qed.

Lemma similarity_0 : similarity 0 = 1.
Proof.
  unfold similarity.
  replace (- 0 ^ 2 / (2 * 30 ^ 2)) with 0 by (field).
  apply exp_0.
Qed.

(** The loop of the score, once some names are done. *)
Lemma similarity_loop_acc pose1 pose2 :
  forall (names : list string) (total_weight weighted_similarity : R),
    let common :=
      filter (fun name => present pose1 name && present pose2 name) names in
    fold_left
      (fun acc name =>
         let '(total_weight, weighted_similarity) := acc in
         match pyget (angles pose1) name, pyget (angles pose2) name with
         | Some angle1, Some angle2 =>
             (total_weight + 1,
              weighted_similarity
              + exp (- (Rabs (angle1 - angle2) ^ 2) / (2 * 30 ^ 2)))
         | _, _ => acc
         end)
      names (total_weight, weighted_similarity)
    = (total_weight + INR (length common),
       weighted_similarity
       + Rsum (map (fun name => similarity (diff_of pose1 pose2 name)) common)).
Proof.
  induction names as [|name names IH]; intros tw ws; cbv zeta.
  - simpl. f_equal; lra.
  - cbn [fold_left filter]. unfold present.
    destruct (pyget (angles pose1) name) as [a1|] eqn:E1;
      destruct (pyget (angles pose2) name) as [a2|] eqn:E2;
      cbn [andb]; rewrite IH; cbv zeta; unfold present; try reflexivity.
    cbn [length map]. rewrite S_INR.
    change (Rsum (?a :: ?l)) with (a + Rsum l).
    assert (similarity (diff_of pose1 pose2 name)
            = exp (- Rabs (a1 - a2) ^ 2 / (2 * 30 ^ 2))) as ->
      by (unfold diff_of, similarity; now rewrite E1, E2).
    f_equal; lra.
Qed.

Lemma Rsum_bounds (l : list R) :
  (forall r, In r l -> 0 <= r <= 1) -> 0 <= Rsum l <= INR (length l).
Proof.
  induction l as [|r l IH]; intro H.
  - simpl. lra.
  - cbn [Rsum fold_right length]. rewrite S_INR. fold (Rsum l).
    assert (0 <= r <= 1) by (apply H; now left).
    assert (0 <= Rsum l <= INR (length l)) by (apply IH; intros; apply H; now right).
    lra.
Qed.

Lemma Rsum_ones (l : list R) :
  (forall r, In r l -> r = 1) -> Rsum l = INR (length l).
Proof.
  induction l as [|r l IH]; intro H.
  - reflexivity.
  - cbn [Rsum fold_right length]. rewrite S_INR. fold (Rsum l).
    rewrite (H r) by (now left). rewrite IH by (intros; apply H; now right).
    lra.
Qed.

Lemma score_unfold self pose1 pose2 :
  calculate_similarity_score self pose1 pose2
  = match common_names pose1 pose2 with
    | [] => 0
    | _ :: _ =>
        Rsum (map (fun name => similarity (diff_of pose1 pose2 name))
                  (common_names pose1 pose2))
        / INR (length (common_names pose1 pose2))
    end.
Proof.
  unfold calculate_similarity_score, similarity_loop.
  rewrite similarity_loop_acc. cbv zeta. fold (common_names pose1 pose2).
  destruct (common_names pose1 pose2) as [|name names] eqn:E.
  - simpl. replace (0 + 0) with 0 by lra.
    destruct (Rltb 0 0) eqn:E0; [|reflexivity].
    apply Rltb_lt in E0. lra.
  - assert (0 < INR (length (name :: names))) as Hpos.
    { apply lt_0_INR. simpl. lia. }
    rewrite !Rplus_0_l.
    destruct (Rltb 0 (INR (length (name :: names)))) eqn:E0; [reflexivity|].
    apply Rltb_lt in Hpos. congruence.
Qed.

End SimilarityFacts.

(** C8.  For every pair of poses, [calculate_similarity_score] returns the
    arithmetic mean of [exp (- diff ^ 2 / (2 * 30 ^ 2))] over the angle names
    whose values are present in both poses, a number between 0 and 1, equal
    to 1 when every common difference is 0; and it returns 0 when no angle
    name has both values present. *)
Theorem calculate_similarity_score_spec :
  forall (self : Analyzer.DefaultAnalyzer) (pose1 pose2 : Models.PoseData),
    let common := Analyzer.common_names pose1 pose2 in
    let score := Analyzer.calculate_similarity_score self pose1 pose2 in
    score
    = match common with
      | [] => 0%R
      | _ :: _ =>
          (Analyzer.Rsum
             (map (fun name =>
                     Analyzer.similarity (Analyzer.diff_of pose1 pose2 name))
                  common)
           / INR (length common))%R
      end
    /\ (0 <= score <= 1)%R
    /\ (common <> [] ->
        (forall name, In name common ->
                      Analyzer.diff_of pose1 pose2 name = 0%R) ->
        score = 1%R)
    /\ (common = [] -> score = 0%R).
Proof.
  intros self pose1 pose2 common score.
  assert (score
          = match common with
            | [] => 0%R
            | _ :: _ =>
                (Analyzer.Rsum
                   (map (fun name =>
                           Analyzer.similarity
                             (Analyzer.diff_of pose1 pose2 name))
                        common)
                 / INR (length common))%R
            end) as Hscore by apply score_unfold.
  split; [exact Hscore|].
  rewrite Hscore. clear Hscore score.
  destruct common as [|name names] eqn:E.
  - repeat split; try lra. intros H _. now contradiction H.
  - assert (0 < INR (length (name :: names)))%R as Hpos.
    { apply lt_0_INR. simpl. lia. }
    set (sims := map (fun name => Analyzer.similarity
                                    (Analyzer.diff_of pose1 pose2 name))
                     (name :: names)).
    assert (length sims = length (name :: names)) as Hlen
      by apply length_map.
    rewrite <- Hlen in *.
    split; [|split].
    + assert (0 <= Analyzer.Rsum sims <= INR (length sims))%R as [Hlo Hhi].
      { apply Rsum_bounds. intros r Hr. unfold sims in Hr.
        apply in_map_iff in Hr. destruct Hr as [n [<- _]].
        pose proof (similarity_bounds (Analyzer.diff_of pose1 pose2 n)).
        lra. }
      split.
      * apply Rmult_le_pos; [lra|]. left. now apply Rinv_0_lt_compat.
      * apply Rmult_le_reg_r with (INR (length sims)); [exact Hpos|].
        unfold Rdiv. rewrite Rmult_assoc, Rinv_l by lra. lra.
    + intros _ Hzero.
      rewrite Rsum_ones.
      * field. lra.
      * intros r Hr. unfold sims in Hr.
        apply in_map_iff in Hr. destruct Hr as [n [<- Hn]].
        rewrite Hzero by exact Hn. apply similarity_0.
    + discriminate.
Qed.

Lemma calculate_similarity_score_spec_witness :
  Analyzer.calculate_similarity_score Analyzer.new
    Analyzer.elbow_reference Analyzer.elbow_reference = 1%R.
Proof.
  apply (calculate_similarity_score_spec Analyzer.new
           Analyzer.elbow_reference Analyzer.elbow_reference).
  - discriminate.
  - intros name [<- | []]. unfold Analyzer.diff_of. simpl.
    replace (150 - 150)%R with 0%R by lra. apply Rabs_R0.
Defined.

(** ** The registry *)

Section RegistryFacts.

Import Registry.
Local Open Scope string_scope.

Variable Cls : Type.

Local Abbreviation Reg := (Registry Cls).
Local Abbreviation Info := (ComponentInfo Cls).

Lemma components_of_set_cls (self : Reg) category n (info : Info) loaded :
  components_of (set_cls self category n info loaded) category
  = PyDict.set (components_of self category) n (with_cls info loaded).
Proof.
  unfold components_of at 1, set_cls, PyDict.get_or. cbn [_components].
  now rewrite get_set_same.
Qed.

Lemma components_of_set_cls_other (self : Reg) category c n (info : Info)
    loaded :
  category <> c ->
  components_of (set_cls self category n info loaded) c
  = components_of self c.
Proof.
  intro Hne. unfold components_of, set_cls, PyDict.get_or. cbn [_components].
  now rewrite get_set_other.
Qed.

(** Replacing a descriptor by one with the same name and the same flag
    changes neither the keys nor the descriptor the search for a default
    stops at. *)
Lemma find_default_set (d : PyDict.t Info) k (v v' : Info) :
  PyDict.get d k = Some v ->
  is_default v' = is_default v ->
  name v' = name v ->
  option_map (@name Cls) (find (@is_default Cls) (PyDict.values (PyDict.set d k v')))
  = option_map (@name Cls) (find (@is_default Cls) (PyDict.values d)).
Proof.
  intros Hget Hflag Hname.
  induction d as [|[k0 v0] d IH]; [discriminate|].
  simpl in Hget |- *.
  destruct (String.eqb k0 k) eqn:E.
  - inversion Hget; subst v0. simpl. rewrite Hflag.
    destruct (is_default v); simpl; congruence.
  - simpl. destruct (is_default v0); [reflexivity|]. now apply IH.
Qed.

Lemma keys_set_present {V : Type} (d : PyDict.t V) k (v v' : V) :
  PyDict.get d k = Some v -> PyDict.keys (PyDict.set d k v') = PyDict.keys d.
Proof.
  intro Hget. rewrite keys_set, <- get_mem. unfold PyDict.contains.
  now rewrite Hget.
Qed.

Lemma default_name_alt (self : Reg) category :
  default_name self category
  = match option_map (@name Cls)
            (find (@is_default Cls)
                  (PyDict.values (components_of self category))) with
    | Some n => Some n
    | None => hd_error (PyDict.keys (components_of self category))
    end.
Proof.
  unfold default_name.
  now destruct (find _ (PyDict.values (components_of self category))).
Qed.

Lemma get_Some_In {V : Type} (d : PyDict.t V) k v :
  PyDict.get d k = Some v -> In (k, v) d.
Proof.
  induction d as [|[k0 v0] d IH]; simpl; [discriminate|].
  destruct (String.eqb k0 k) eqn:E.
  - intro H. inversion H; subst. apply String.eqb_eq in E. subst. now left.
  - intro H. right. now apply IH.
Qed.

(** In a registry that satisfies the two invariants, a descriptor found
    among the values of a category is the one stored under its name. *)
Lemma get_of_value (self : Reg) category (info : Info) :
  wf self -> names_agree self ->
  In info (PyDict.values (components_of self category)) ->
  PyDict.get (components_of self category) (name info) = Some info.
Proof.
  intros [_ Hwf] Hnames Hin.
  unfold components_of, PyDict.get_or in *.
  destruct (PyDict.get (_components self) category) as [comps|] eqn:E;
    [|contradiction].
  apply get_Some_In in E.
  unfold names_agree in Hnames.
  rewrite forallb_forall in Hwf, Hnames.
  specialize (Hwf _ E). specialize (Hnames _ E). cbn [snd] in Hwf, Hnames.
  unfold PyDict.values in Hin. apply in_map_iff in Hin.
  destruct Hin as [[k v] [Hv Hin]]. cbn [snd] in Hv. subst v.
  rewrite forallb_forall in Hnames. specialize (Hnames _ Hin).
  cbn [fst snd] in Hnames. apply String.eqb_eq in Hnames. rewrite Hnames.
  now apply get_In.
Qed.

(** *** The order of registration *)

Lemma get_or_store (comps : PyDict.t (PyDict.t Info)) category n (info : Info)
    c :
  PyDict.get_or (store comps category n info) c PyDict.empty
  = if String.eqb category c
    then PyDict.set (PyDict.get_or comps category PyDict.empty) n info
    else PyDict.get_or comps c PyDict.empty.
Proof.
  unfold store, PyDict.get_or, PyDict.contains.
  destruct (String.eqb category c) eqn:E.
  - apply String.eqb_eq in E. subst c.
    destruct (PyDict.get comps category) eqn:Eg.
    + now rewrite get_set_same, Eg.
    + now rewrite !get_set_same.
  - assert (category <> c) as Hne
      by (intro; subst; rewrite String.eqb_refl in E; discriminate).
    rewrite get_set_other by exact Hne.
    destruct (PyDict.get comps category) eqn:Eg; [reflexivity|].
    now rewrite get_set_other.
Qed.

Lemma hd_error_keys_set {V : Type} (d : PyDict.t V) k v first :
  hd_error (PyDict.keys d) = Some first ->
  hd_error (PyDict.keys (PyDict.set d k v)) = Some first.
Proof.
  rewrite keys_set. destruct (PyDict.mem k (PyDict.keys d)); [tauto|].
  now destruct (PyDict.keys d).
Qed.

Lemma register_keeps_first (self : Reg) category n c description flag
    category' first :
  hd_error (PyDict.keys (components_of self category')) = Some first ->
  hd_error (PyDict.keys
              (components_of (register self category n c description flag)
                 category'))
  = Some first.
Proof.
  unfold components_of, register. cbn [_components]. rewrite get_or_store.
  destruct (String.eqb category category') eqn:E; [|tauto].
  apply String.eqb_eq in E. subst category'. apply hd_error_keys_set.
Qed.

Lemma register_lazy_keeps_first (self : Reg) category n import_path
    class_name description flag category' first :
  hd_error (PyDict.keys (components_of self category')) = Some first ->
  hd_error (PyDict.keys
              (components_of
                 (register_lazy self category n import_path class_name
                    description flag)
                 category'))
  = Some first.
Proof.
  unfold components_of, register_lazy. cbn [_components]. rewrite get_or_store.
  destruct (String.eqb category category') eqn:E; [|tauto].
  apply String.eqb_eq in E. subst category'. apply hd_error_keys_set.
Qed.

Lemma register_first (self : Reg) category n c description flag :
  components_of self category = [] ->
  PyDict.keys (components_of (register self category n c description flag)
                 category)
  = [n].
Proof.
  unfold components_of, register. cbn [_components]. rewrite get_or_store.
  rewrite String.eqb_refl. now intros ->.
Qed.

(** *** The invariants *)

Lemma nodupb_snoc (l : list string) k :
  PyDict.nodupb l = true -> PyDict.mem k l = false ->
  PyDict.nodupb (l ++ [k]) = true.
Proof.
  rewrite !nodupb_NoDup. intros Hl Hk.
  assert (~ In k l) as Hn by (rewrite <- mem_In; congruence).
  clear Hk. induction l as [|a l IH]; simpl.
  - constructor; [tauto | constructor].
  - inversion Hl; subst. constructor.
    + rewrite in_app_iff. simpl. intros [H | [H | []]]; [tauto|].
      subst. apply Hn. now left.
    + apply IH; [assumption|]. intro. apply Hn. now right.
Qed.

Lemma wf_set {V : Type} (d : PyDict.t V) k v :
  PyDict.wf d -> PyDict.wf (PyDict.set d k v).
Proof.
  unfold PyDict.wf. intro H. rewrite keys_set.
  destruct (PyDict.mem k (PyDict.keys d)) eqn:E; [exact H|].
  now apply nodupb_snoc.
Qed.

Lemma forallb_set {V : Type} (Q : string * V -> bool) (d : PyDict.t V) k v :
  forallb Q d = true -> Q (k, v) = true -> forallb Q (PyDict.set d k v) = true.
Proof.
  intros Hd Hq. induction d as [|[k0 v0] d IH]; simpl in *.
  - now rewrite Hq.
  - apply andb_true_iff in Hd. destruct Hd as [H0 Hd].
    destruct (String.eqb k0 k) eqn:E; simpl.
    + apply String.eqb_eq in E. subst k0. now rewrite Hq, Hd.
    + now rewrite H0, IH.
Qed.

Lemma inner_ok_get_or (Q : PyDict.t Info -> bool)
    (comps : PyDict.t (PyDict.t Info)) c :
  Q [] = true -> forallb (fun entry => Q (snd entry)) comps = true ->
  Q (PyDict.get_or comps c PyDict.empty) = true.
Proof.
  intros Hnil H. unfold PyDict.get_or.
  destruct (PyDict.get comps c) as [inner|] eqn:E; [|exact Hnil].
  apply get_Some_In in E. rewrite forallb_forall in H.
  exact (H _ E).
Qed.

Lemma inner_ok_store (Q : PyDict.t Info -> bool)
    (comps : PyDict.t (PyDict.t Info)) category n info :
  Q [] = true ->
  (forall inner, Q inner = true -> Q (PyDict.set inner n info) = true) ->
  forallb (fun entry => Q (snd entry)) comps = true ->
  forallb (fun entry => Q (snd entry)) (store comps category n info) = true.
Proof.
  intros Hnil Hset H. unfold store.
  assert (forallb (fun entry => Q (snd entry))
            (if PyDict.contains comps category then comps
             else PyDict.set comps category PyDict.empty) = true) as H'.
  { destruct (PyDict.contains comps category); [exact H|].
    now apply forallb_set. }
  apply forallb_set; [exact H'|]. cbn [snd].
  apply Hset. now apply inner_ok_get_or.
Qed.

Lemma wf_store (comps : PyDict.t (PyDict.t Info)) category n info :
  PyDict.wf comps -> PyDict.wf (store comps category n info).
Proof.
  intro H. unfold store. apply wf_set.
  destruct (PyDict.contains comps category); [exact H | now apply wf_set].
Qed.

Lemma names_set (inner : PyDict.t Info) n (info : Info) :
  name info = n ->
  forallb (fun item => String.eqb (name (snd item)) (fst item)) inner = true ->
  forallb (fun item => String.eqb (name (snd item)) (fst item))
          (PyDict.set inner n info) = true.
Proof.
  intros Hn H. apply forallb_set; [exact H|]. cbn [fst snd].
  now apply String.eqb_eq.
Qed.

Lemma new_invariants : wf (@new Cls) /\ names_agree (@new Cls).
Proof. repeat split. Qed.

Lemma store_invariants (self : Reg) category n (info : Info) lazy_imports :
  name info = n ->
  wf self /\ names_agree self ->
  let self' :=
    {| _components := store (_components self) category n info;
       _lazy_imports := lazy_imports |} in
  wf self' /\ names_agree self'.
Proof.
  intros Hn [[Hwf Hin] Hnames]. cbv zeta. unfold wf, names_agree.
  cbn [_components]. repeat split.
  - now apply wf_store.
  - apply (inner_ok_store
             (fun inner => PyDict.nodupb (PyDict.keys inner)));
      [reflexivity | | exact Hin].
    intros inner H. now apply wf_set.
  - apply (inner_ok_store
             (fun inner =>
                forallb (fun item => String.eqb (name (snd item)) (fst item))
                        inner));
      [reflexivity | | exact Hnames].
    intros inner H. now apply names_set.
Qed.

Lemma register_invariants (self : Reg) category n c description flag :
  wf self /\ names_agree self ->
  wf (register self category n c description flag)
  /\ names_agree (register self category n c description flag).
Proof. intro H. now apply store_invariants. Qed.

Lemma register_lazy_invariants (self : Reg) category n import_path class_name
    description flag :
  wf self /\ names_agree self ->
  wf (register_lazy self category n import_path class_name description flag)
  /\ names_agree
       (register_lazy self category n import_path class_name description flag).
Proof. intro H. now apply store_invariants. Qed.

Lemma clear_invariants (self : Reg) :
  wf self -> wf (clear self) /\ names_agree (clear self).
Proof.
  intros [Hwf _]. unfold wf, names_agree, clear, PyDict.wf, PyDict.keys in *.
  cbn [_components]. rewrite map_map. cbn [fst]. repeat split.
  - exact Hwf.
  - apply forallb_forall. intros entry H. apply in_map_iff in H.
    destruct H as [e [<- _]]. reflexivity.
  - apply forallb_forall. intros entry H. apply in_map_iff in H.
    destruct H as [e [<- _]]. reflexivity.
Qed.

End RegistryFacts.

Section RegistryCalls.

Import Registry.
Local Open Scope string_scope.

Variable Cls : Type.
Variable import_class : string -> string -> outcome (option Cls).

Local Abbreviation Reg := (Registry Cls).
Local Abbreviation Info := (ComponentInfo Cls).

(** [get] leaves the registry as it is, or stores the class it has loaded in
    the descriptor it has found. *)
Lemma get_state (self : Reg) category n :
  snd (get import_class category n self) = self
  \/ exists info loaded import_path class_name,
       PyDict.get (components_of self category) n = Some info
       /\ cls info = None
       /\ PyDict.get (_lazy_imports self) (category ++ "." ++ n)
          = Some (import_path, class_name)
       /\ import_class import_path class_name = Returned loaded
       /\ get import_class category n self
          = (Returned loaded, set_cls self category n info loaded).
Proof.
  unfold get.
  destruct (PyDict.get (_lazy_imports self) (category ++ "." ++ n))
    as [[import_path class_name]|] eqn:El.
  2:{ left. now destruct (PyDict.get (components_of self category) n). }
  destruct (PyDict.get (components_of self category) n) as [info|] eqn:Ei.
  2:{ left. now rewrite Ei. }
  destruct (cls info) eqn:Ec.
  { left. now rewrite Ei. }
  destruct (import_class import_path class_name) as [loaded|e] eqn:Eimp.
  2:{ left. reflexivity. }
  right. exists info, loaded, import_path, class_name.
  rewrite components_of_set_cls, get_set_same. cbn.
  repeat split; congruence.
Qed.

Lemma get_factory_of (self : Reg) category n (info : Info) :
  PyDict.get (components_of self category) n = Some info ->
  name info = n ->
  fst (get import_class category n self)
  = factory_of import_class self category info.
Proof.
  intros Hget Hname. unfold get, factory_of. rewrite Hname.
  destruct (PyDict.get (_lazy_imports self) (category ++ "." ++ n))
    as [[import_path class_name]|] eqn:El.
  - rewrite Hget.
    destruct (cls info) eqn:Ec.
    + rewrite Hget. cbn. now rewrite Ec.
    + destruct (import_class import_path class_name) as [loaded|e];
        [|reflexivity].
      rewrite components_of_set_cls, get_set_same. reflexivity.
  - rewrite Hget. cbn. now destruct (cls info).
Qed.

(** Asking twice gives the same answer. *)
Lemma get_twice (self : Reg) category n :
  fst (get import_class category n (snd (get import_class category n self)))
  = fst (get import_class category n self).
Proof.
  destruct (get_state self category n)
    as [-> | (info & loaded & import_path & class_name
              & Hget & Hcls & Hlazy & Himp & ->)];
    [reflexivity|].
  cbn [fst snd].
  set (self' := set_cls self category n info loaded).
  assert (PyDict.get (_lazy_imports self') (category ++ "." ++ n)
          = Some (import_path, class_name)) as Hlazy' by exact Hlazy.
  assert (PyDict.get (components_of self' category) n
          = Some (with_cls info loaded)) as Hget'.
  { unfold self'. rewrite components_of_set_cls. apply get_set_same. }
  unfold get. rewrite Hlazy', Hget'. cbn [cls with_cls].
  destruct loaded as [c|].
  - rewrite Hget'. reflexivity.
  - rewrite Himp, components_of_set_cls, get_set_same. reflexivity.
Qed.

Lemma default_name_get (self : Reg) category c n :
  default_name (snd (get import_class c n self)) category
  = default_name self category.
Proof.
  destruct (get_state self c n)
    as [-> | (info & loaded & import_path & class_name
              & Hget & Hcls & Hlazy & Himp & ->)];
    [reflexivity|].
  cbn [snd]. rewrite !default_name_alt.
  destruct (string_dec c category) as [-> | Hne].
  - rewrite components_of_set_cls.
    rewrite (@find_default_set Cls _ n info (with_cls info loaded) Hget)
      by reflexivity.
    now rewrite (@keys_set_present _ _ n info (with_cls info loaded) Hget).
  - now rewrite components_of_set_cls_other.
Qed.

Lemma get_default_alt (self : Reg) category :
  get_default import_class category self
  = match default_name self category with
    | Some n => get import_class category n self
    | None => (Returned None, self)
    end.
Proof.
  unfold get_default, default_name.
  destruct (find _ (PyDict.values (components_of self category)));
    [reflexivity|].
  now destruct (PyDict.keys (components_of self category)).
Qed.

Lemma get_default_twice (self : Reg) category :
  fst (get_default import_class category
         (snd (get_default import_class category self)))
  = fst (get_default import_class category self).
Proof.
  rewrite (get_default_alt self).
  destruct (default_name self category) as [n|] eqn:E.
  - rewrite get_default_alt, default_name_get, E. apply get_twice.
  - cbn [snd]. rewrite get_default_alt, E. reflexivity.
Qed.

Lemma get_invariants (self : Reg) category n :
  wf self /\ names_agree self ->
  wf (snd (get import_class category n self))
  /\ names_agree (snd (get import_class category n self)).
Proof.
  intros [[Hwf Hin] Hnames].
  destruct (get_state self category n)
    as [-> | (info & loaded & import_path & class_name
              & Hget & Hcls & Hlazy & Himp & ->)];
    [repeat split; assumption|].
  cbn [snd]. unfold wf, names_agree, set_cls. cbn [_components].
  assert (forallb (fun item : string * Info =>
                     String.eqb (name (snd item)) (fst item))
                  (components_of self category) = true) as Hn.
  { apply (inner_ok_get_or
             (fun inner =>
                forallb (fun item => String.eqb (name (snd item)) (fst item))
                        inner)); [reflexivity | exact Hnames]. }
  assert (PyDict.nodupb (PyDict.keys (components_of self category)) = true)
    as Hk.
  { apply (inner_ok_get_or
             (fun inner => PyDict.nodupb (PyDict.keys inner)));
      [reflexivity | exact Hin]. }
  repeat split.
  - now apply wf_set.
  - apply forallb_set; [exact Hin|]. cbn [snd]. now apply wf_set.
  - apply forallb_set; [exact Hnames|]. cbn [snd].
    apply names_set; [|exact Hn].
    apply get_Some_In in Hget. rewrite forallb_forall in Hn.
    specialize (Hn _ Hget). now apply String.eqb_eq in Hn.
Qed.

(** Every registry that the calls of the class can build from a new one
    satisfies the two invariants. *)
Lemma history_invariants (calls : list (call Cls)) :
  wf (history import_class calls)
  /\ names_agree (history import_class calls).
Proof.
  unfold history.
  assert (forall (self : Reg),
             wf self /\ names_agree self ->
             wf (fold_left (after import_class) calls self)
             /\ names_agree (fold_left (after import_class) calls self)) as H.
  { induction calls as [|c calls IH]; intros self Hs; [exact Hs|].
    cbn [fold_left]. apply IH.
    destruct c as [? ? ? ? ? | ? ? ? ? ? ? | ? ? | c |]; cbn [after].
    - now apply register_invariants.
    - now apply register_lazy_invariants.
    - now apply get_invariants.
    - rewrite get_default_alt.
      destruct (default_name self c); [|exact Hs].
      now apply get_invariants.
    - apply clear_invariants. apply Hs. }
  apply H. apply new_invariants.
Qed.

End RegistryCalls.

(** C3.  For every category of a registry that satisfies its invariants (they
    hold of [new] and are kept by [register], [register_lazy], [get] and
    [clear]): [get_default] answers with the factory of the first descriptor
    marked as default, which is the marked one when one descriptor is marked;
    when no descriptor is marked and the category is not empty, it answers
    with the factory of the first entry of the category, an entry that later
    registrations leave first; when the category is empty it answers [None]
    and changes nothing; and asking again gives the same answer. *)
Theorem get_default_spec :
  forall (Cls : Type) (import_class : string -> string -> outcome (option Cls))
         (self : Registry.Registry Cls) (category : string),
    Registry.wf self -> Registry.names_agree self ->
    let components := Registry.components_of self category in
    let marked :=
      find (@Registry.is_default Cls) (PyDict.values components) in
    let result := Registry.get_default import_class category self in
    (forall info,
        marked = Some info ->
        Registry.is_default info = true
        /\ fst result = Registry.factory_of import_class self category info)
    /\ (forall info,
          In info (PyDict.values components) ->
          Registry.is_default info = true ->
          (forall other,
              In other (PyDict.values components) ->
              Registry.is_default other = true -> other = info) ->
          fst result = Registry.factory_of import_class self category info)
    /\ (marked = None ->
        forall first info rest,
          components = (first, info) :: rest ->
          fst result = Registry.factory_of import_class self category info
          /\ (forall c n cls description flag,
                hd_error
                  (PyDict.keys
                     (Registry.components_of
                        (Registry.register self c n cls description flag)
                        category))
                = Some first)
          /\ (forall c n import_path class_name description flag,
                hd_error
                  (PyDict.keys
                     (Registry.components_of
                        (Registry.register_lazy self c n import_path
                           class_name description flag)
                        category))
                = Some first))
    /\ (components = [] -> result = (Returned None, self))
    /\ fst (Registry.get_default import_class category (snd result))
       = fst result.
Proof.
  intros Cls import_class self category Hwf Hnames components marked result.
  assert (forall info,
             marked = Some info ->
             Registry.is_default info = true
             /\ fst result
                = Registry.factory_of import_class self category info) as Ha.
  { intros info Hm. pose proof (find_some _ _ Hm) as [Hin Hflag].
    split; [exact Hflag|].
    unfold result, Registry.get_default. fold components. fold marked.
    rewrite Hm. apply get_factory_of; [|reflexivity].
    now apply get_of_value. }
  split; [exact Ha|]. split; [|split; [|split]].
  - intros info Hin Hflag Hunique.
    destruct marked as [found|] eqn:Hm.
    + pose proof (find_some _ _ Hm) as [Hin' Hflag'].
      rewrite <- (Hunique found Hin' Hflag'). now apply Ha.
    + pose proof (find_none _ _ Hm _ Hin). congruence.
  - intros Hm first info rest Hc. split; [|split].
    + unfold result, Registry.get_default. fold components. fold marked.
      rewrite Hm, Hc. cbn [PyDict.keys map fst].
      apply get_factory_of.
      * fold components. rewrite Hc. cbn. now rewrite String.eqb_refl.
      * assert (In info (PyDict.values components)) as Hin
          by (rewrite Hc; now left).
        pose proof (@get_of_value Cls self category info Hwf Hnames Hin) as Hget.
        fold components in Hget. rewrite Hc in Hget. cbn in Hget.
        destruct (String.eqb first (Registry.name info)) eqn:E.
        -- now apply String.eqb_eq in E.
        -- apply get_Some_In in Hget.
           destruct Hwf as [_ Hinner].
           assert (PyDict.nodupb (PyDict.keys components) = true) as Hnd.
           { apply (inner_ok_get_or
                      (fun inner => PyDict.nodupb (PyDict.keys inner)));
               [reflexivity | exact Hinner]. }
           assert (forallb (fun item : string * Registry.ComponentInfo Cls =>
                              String.eqb (Registry.name (snd item)) (fst item))
                           components = true) as Hn.
           { apply (inner_ok_get_or
                      (fun inner =>
                         forallb (fun item =>
                                    String.eqb (Registry.name (snd item))
                                               (fst item)) inner));
               [reflexivity | exact Hnames]. }
           rewrite Hc in Hn. cbn in Hn. apply andb_true_iff in Hn.
           destruct Hn as [Hn _]. apply String.eqb_eq in Hn.
           rewrite Hn, String.eqb_refl in E. discriminate.
    + intros. apply register_keeps_first.
      change (hd_error (PyDict.keys components) = Some first).
      now rewrite Hc.
    + intros. apply register_lazy_keeps_first.
      change (hd_error (PyDict.keys components) = Some first).
      now rewrite Hc.
  - intro Hc. unfold result, Registry.get_default. fold components.
    now rewrite Hc.
  - apply get_default_twice.
Qed.

Lemma get_default_spec_witness :
  (fst (Registry.get_default (@Registry.no_module string) "analyzer"
          Registry.two_analyzers)
   = Returned (Some "SecondAnalyzer"))%string.
Proof.
  destruct (@get_default_spec string (@Registry.no_module string)
              Registry.two_analyzers "analyzer"%string
              (conj eq_refl eq_refl) eq_refl) as [Hmarked _].
  destruct (Hmarked
              (Registry.mkComponentInfo "Second" (Some "SecondAnalyzer")
                 "" "analyzer" true)%string eq_refl) as [_ Hresult].
  exact Hresult.
Defined.

(** Without a marked descriptor the first registered one is the default,
    also for a deferred descriptor whose module cannot be imported. *)
Example get_default_first :
  (fst (Registry.get_default (@Registry.no_module string) "detector"
          (Registry.register
             (Registry.register Registry.new
                "detector" "Light" "LightDetector" "" false)
             "detector" "Heavy" "HeavyDetector" "" false))
   = Returned (Some "LightDetector"))%string.
Proof. reflexivity. Qed.

Example get_default_deferred :
  (fst (Registry.get_default (@Registry.no_module string) "detector"
          (Registry.register_lazy Registry.new
             "detector" "Light" "src.deps.light" "LightDetector" "" false))
   = Raised (OtherError "ModuleNotFoundError"))%string.
Proof. reflexivity. Qed.

(** ** The configuration *)

Section ConfigFacts.

Import Config.
Local Open Scope string_scope.

Lemma split_no_sep (sep : ascii) (s : string) :
  forallb (fun c => negb (Ascii.eqb c sep)) (list_ascii_of_string s) = true ->
  split sep s = [s].
Proof.
  induction s as [|c s IH]; simpl; [reflexivity|].
  intro H. apply andb_true_iff in H. destruct H as [Hc Hs].
  apply negb_true_iff in Hc. rewrite Hc, IH by exact Hs. reflexivity.
Qed.


Lemma sections_no_dot section :
  In section sections -> no_dot section = true.
Proof.
  unfold sections. simpl.
  intros [<- | [<- | [<- | [<- | [<- | []]]]]]; reflexivity.
Qed.

End ConfigFacts.



(** An attribute that exists is assigned. *)
Example set_angle_threshold :
  Config._analyzer
    (Config.set Config.new "analyzer.angle_threshold" (Config.VFloat 20))
  = [("angle_threshold"%string, Config.VFloat 20)].
Proof. reflexivity. Qed.



(** A document that is a list names no section: nothing is read, nothing
    is raised, and the load counts as a success. *)
Example load_from_file_list :
  Config.load_from_file (fun _ => Config.Document (Config.VList []))
    "config.json" Config.new
  = (true, Config.new).
Proof. reflexivity. Qed.

(** A well shaped document: unknown fields are skipped, a list of the colour
    section becomes a tuple, and the custom entries are merged. *)
Example load_from_file_document :
  let document :=
    Config.VDict
      [ ("render"%string,
         Config.VDict [ ("line_thickness_bold"%string, Config.VInt 6);
                        ("shadow"%string, Config.VBool true) ]);
        ("colors"%string,
         Config.VDict [ ("red"%string,
                         Config.VList [Config.VInt 10; Config.VInt 20;
                                       Config.VInt 200]) ]);
        ("custom"%string,
         Config.VDict [ ("language"%string, Config.VStr "zh") ]) ] in
  let result :=
    Config.load_from_file (fun _ => Config.Document document)
      "config.json" Config.new in
  fst result = true
  /\ PyDict.get (Config._render (snd result)) "line_thickness_bold"
     = Some (Config.VInt 6)
  /\ PyDict.get (Config._render (snd result)) "shadow" = None
  /\ PyDict.get (Config._colors (snd result)) "red"
     = Some (Config.VTuple [Config.VInt 10; Config.VInt 20; Config.VInt 200])
  /\ Config._custom (snd result)
     = [(Config.VStr "language", Config.VStr "zh")].
Proof. repeat split. Qed.

(** A string is searched for the name of the section, and cannot be
    indexed by it. *)
Example load_from_file_string :
  Config.load_from_file (fun _ => Config.Document (Config.VStr "my detector"))
    "config.json" Config.new
  = (false, Config.new).
Proof. reflexivity. Qed.

(** A custom entry that is a list of pairs is read pair by pair, up to the
    first element that is not a pair. *)
Example load_from_file_custom_pairs :
  let document :=
    Config.VDict
      [ ("custom"%string,
         Config.VList [ Config.VList [Config.VStr "language"; Config.VStr "zh"];
                        Config.VInt 7 ]) ] in
  Config.load_from_file (fun _ => Config.Document document)
    "config.json" Config.new
  = (false,
     Config.with_custom Config.new
       [(Config.VStr "language", Config.VStr "zh")]).
Proof. reflexivity. Qed.

(** ** The detector and the container *)

Section DetectorFacts.

Import Detector.

Variable machine : Machine.

(** [initialize] tries the delegate of the detector; after a failure with
    the GPU it tries the CPU, once. *)
Lemma initialize_gpu path dc tc det an :
  initialize machine (mkDetector path dc tc true det an)
  = match try_create machine path true with
    | Some d => (true, mkDetector path dc tc true (Some d) an, [true])
    | None =>
        match try_create machine path false with
        | Some d =>
            (true, mkDetector path dc tc false (Some d) an, [true; false])
        | None => (false, mkDetector path dc tc false det an, [true; false])
        end
    end.
Proof.
  simp initialize.
  destruct (try_create machine path true); simpl; [reflexivity|].
  simp initialize.
  destruct (try_create machine path false); reflexivity.
Qed.


End DetectorFacts.

Section DepsFacts.

Import Deps.
Local Open Scope string_scope.

Variable machine : Detector.Machine.
Variable import_class : string -> string -> outcome (option Cls).

(** The first [get_detector] for a name: the handle is created and stored,
    then the factory runs on the container that holds it. *)
Lemma get_detector_first (self : Deps) name :
  PyDict.get (_instances self) (_get_instance_key "detector" name) = None ->
  let key := _get_instance_key "detector" name in
  let self1 :=
    with_instances self
      (PyDict.set (_instances self) key
         (_create_lazy_instance "detector" name)) in
  get_detector machine import_class (Some name) self
  = match factory machine import_class "detector" name self1 with
    | (Returned instance, self2) =>
        (Returned instance,
         with_instances self2
           (PyDict.set (_instances self2) key
              {| _factory := ("detector", name);
                 _instance := Some instance |}))
    | (Raised e, self2) => (Raised e, self2)
    end.
Proof.
  intros Hnone key self1.
  unfold get_detector, get_component, bind, ret, modify.
  unfold PyDict.contains. rewrite Hnone. fold key. fold self1.
  unfold lazy_get.
  assert (PyDict.get (_instances self1) key
          = Some (_create_lazy_instance "detector" name)) as ->
    by apply get_set_same.
  reflexivity.
Qed.

Lemma factory_found (self : Deps) category name c r :
  Registry.get import_class category name (_registry self)
  = (Returned (Some c), r) ->
  factory machine import_class category name self
  = match call c with
    | Returned instance =>
        if (category =? "detector") && has_initialize instance
        then run_initialize machine instance (with_registry self r)
        else (Returned instance, with_registry self r)
    | Raised e => (Raised e, with_registry self r)
    end.
Proof.
  intro H. unfold factory, bind, on_registry, lift, ret. rewrite H.
  destruct (call c) as [instance|e]; [|reflexivity].
  now destruct ((category =? "detector") && has_initialize instance).
Qed.

Lemma factory_missing (self : Deps) category name r :
  Registry.get import_class category name (_registry self)
  = (Returned None, r) ->
  fst (factory machine import_class category name self)
  = Raised (ValueError ("未找到组件: " ++ category ++ "." ++ name)).
Proof.
  intro H. unfold factory, bind, on_registry, raise. now rewrite H.
Qed.

End DepsFacts.

(** C5, as the code has it.  For the first [get_detector] of a name that the
    registry resolves to a class: when the constructor of the class raises,
    the exception reaches the caller and no landmarker creation is tried;
    when the class gives a detector with the GPU enabled, the call returns
    the detector and caches it, after one attempt with the GPU delegate if
    that attempt succeeds, and otherwise after exactly one more attempt, with
    the GPU disabled; when that second attempt fails too, the call still
    returns the detector, whose [_detector] is what it was before the
    call. *)
Theorem get_detector_construction :
  forall (machine : Detector.Machine)
         (import_class : string -> string -> outcome (option Deps.Cls))
         (self : Deps.Deps) (name : string) (c : Deps.Cls)
         (r : Registry.Registry Deps.Cls),
    PyDict.get (Deps._instances self) (Deps._get_instance_key "detector" name)
    = None ->
    Registry.get import_class "detector" name (Deps._registry self)
    = (Returned (Some c), r) ->
    let result := Deps.get_detector machine import_class (Some name) self in
    (forall e,
        Deps.call c = Raised e ->
        fst result = Raised e
        /\ Deps.attempts (snd result) = Deps.attempts self)
    /\ (forall path dc tc det an,
          Deps.call c
          = Returned (Deps.DetectorObject
                        (Detector.mkDetector path dc tc true det an)) ->
          exists d,
            fst result = Returned (Deps.DetectorObject d)
            /\ PyDict.get (Deps._instances (snd result))
                 (Deps._get_instance_key "detector" name)
               = Some (Deps.mkLazyInstance ("detector"%string, name)
                         (Some (Deps.DetectorObject d)))
            /\ match Detector.try_create machine path true with
               | Some l =>
                   d = Detector.mkDetector path dc tc true (Some l) an
                   /\ Deps.attempts (snd result) = Deps.attempts self ++ [true]
               | None =>
                   d = Detector.mkDetector path dc tc false
                         (match Detector.try_create machine path false with
                          | Some l => Some l
                          | None => det
                          end) an
                   /\ Deps.attempts (snd result)
                      = Deps.attempts self ++ [true; false]
               end).
Proof.
  intros machine import_class self name c r Hnone Hget result.
  unfold result. rewrite get_detector_first by exact Hnone.
  rewrite (@factory_found machine import_class _ "detector" name c r)
    by exact Hget.
  split.
  - intros e He. rewrite He. split; reflexivity.
  - intros path dc tc det an Hc. rewrite Hc.
    cbn [String.eqb Ascii.eqb Bool.eqb andb Deps.has_initialize].
    unfold Deps.run_initialize. rewrite initialize_gpu.
    destruct (Detector.try_create machine path true) as [l|].
    + eexists. cbn [fst snd]. split; [reflexivity|]. split.
      * cbn [Deps._instances Deps.with_instances]. apply get_set_same.
      * split; reflexivity.
    + destruct (Detector.try_create machine path false) as [l|].
      * eexists. cbn [fst snd]. split; [reflexivity|]. split.
        -- cbn [Deps._instances Deps.with_instances]. apply get_set_same.
        -- split; reflexivity.
      * eexists. cbn [fst snd]. split; [reflexivity|]. split.
        -- cbn [Deps._instances Deps.with_instances]. apply get_set_same.
        -- split; reflexivity.
Qed.

Lemma get_detector_construction_witness :
  exists d,
    fst (Deps.get_detector Deps.no_landmarker (@Registry.no_module Deps.Cls)
           (Some "MediaPipe-Heavy"%string) (Deps.new Deps.heavy_registry))
    = Returned (Deps.DetectorObject d)
    /\ Detector._detector d = None.
Proof.
  destruct (@get_detector_construction Deps.no_landmarker
              (@Registry.no_module Deps.Cls) (Deps.new Deps.heavy_registry)
              "MediaPipe-Heavy" Deps.MediaPipeHeavyDetector
              Deps.heavy_registry eq_refl eq_refl) as [_ H].
  destruct (H _ _ _ _ _ eq_refl) as [d [Hd [_ [Heq _]]]].
  exists d. split; [exact Hd|]. rewrite Heq. reflexivity.
Defined.

(** C5, as the specification states it, fails: when no landmarker can be created with
    either delegate, the call does not fail; it returns the detector without
    landmarker, after one attempt with each delegate, and keeps it in the
    cache. *)
Lemma get_detector_returns_uninitialized :
  let result :=
    Deps.get_detector Deps.no_landmarker (@Registry.no_module Deps.Cls)
      (Some "MediaPipe-Heavy"%string) (Deps.new Deps.heavy_registry) in
  fst result
  = Returned
      (Deps.DetectorObject
         (Detector.mkDetector "models/pose_landmarker_heavy.task"
            (1/2) (1/2) false None None))
  /\ Deps.attempts (snd result) = [true; false]
  /\ PyDict.get (Deps._instances (snd result)) "detector.MediaPipe-Heavy"
     = Some (Deps.mkLazyInstance
               ("detector"%string, "MediaPipe-Heavy"%string)
               (Some (Deps.DetectorObject
                        (Detector.mkDetector
                           "models/pose_landmarker_heavy.task"
                           (1/2) (1/2) false None None)))).
Proof.
  cbv zeta. rewrite get_detector_first by reflexivity.
  rewrite (@factory_found Deps.no_landmarker _ _ "detector" "MediaPipe-Heavy"
             Deps.MediaPipeHeavyDetector Deps.heavy_registry)
    by reflexivity.
  cbn [Deps.call Deps.MediaPipeHeavyDetector String.eqb Ascii.eqb Bool.eqb
       andb Deps.has_initialize].
  unfold Deps.run_initialize, Detector.new. rewrite initialize_gpu.
  repeat split.
Qed.

(** A constructor that raises is not tried again. *)
Example get_detector_broken :
  fst (Deps.get_detector Deps.cpu_only (@Registry.no_module Deps.Cls)
         (Some "Broken"%string) (Deps.new Deps.broken_registry))
  = Raised (OtherError "RuntimeError").
Proof. reflexivity. Qed.

(** Without a name and without selection, the container asks for the
    instance under the [__name__] of the default class, which is not the
    name the heavy detector is registered under. *)
Example get_detector_default_name :
  fst (Deps.get_detector Deps.cpu_only (@Registry.no_module Deps.Cls)
         None (Deps.new Deps.heavy_registry))
  = Raised (ValueError "未找到组件: detector.MediaPipeHeavyDetector").
Proof. reflexivity. Qed.

(** ** Concurrent first access *)

Section ThreadsFacts.

Import Threads.

Variable key : string.



End ThreadsFacts.


(** When the first caller returns before the second one starts, the second
    one finds the handle and its instance. *)
Example get_detector_sequential :
  let s :=
    Threads.run "detector.MediaPipe-Heavy" Threads.sequential_schedule
      Threads.two_callers in
  Threads.threads s = [Threads.Done (Some 0); Threads.Done (Some 0)]
  /\ Threads.factory_calls s = 1.
Proof. split; reflexivity. Qed.

(** C9, on the failing schedule.  Two callers of [get_detector] for the same
    key, on a container without instance, both find the key absent before
    either stores its handle: each then stores a handle of its own and calls
    the factory under the lock of that handle.  The factory is called twice
    and the callers return different instances. *)
Theorem get_detector_race :
  let s :=
    Threads.run "detector.MediaPipe-Heavy" Threads.racing_schedule
      Threads.two_callers in
  Threads.threads s = [Threads.Done (Some 0); Threads.Done (Some 1)]
  /\ Threads.factory_calls s = 2.
Proof. split; reflexivity. Qed.

(** * Further properties *)

(** ** Comparing angles and poses *)

Section ComparisonFacts.

Import Models Analyzer.
Local Open Scope R_scope.

Variable self : DefaultAnalyzer.

Lemma verdict_monotone pose1 pose2 t t' name :
  t <= t' ->
  verdict self pose1 pose2 t name = true ->
  verdict self pose1 pose2 t' name = true.
Proof.
  unfold verdict, compare_angles. cbn [threshold_or_default].
  destruct (pyget (angles pose1) name), (pyget (angles pose2) name);
    cbn [fst]; try reflexivity.
  intros Hle H. apply Rleb_le in H. apply Rleb_le. lra.
Qed.

Lemma verdict_same pose t name :
  0 <= t -> verdict self pose pose t name = true.
Proof.
  intro Ht. unfold verdict, compare_angles. cbn [threshold_or_default].
  destruct (pyget (angles pose) name) as [a|]; cbn [fst]; [|reflexivity].
  apply Rleb_le. replace (a - a) with 0 by lra. rewrite Rabs_R0. exact Ht.
Qed.

Lemma length_filter_le {A : Type} (f : A -> bool) (l : list A) :
  (length (filter f l) <= length l)%nat.
Proof.
  induction l as [|a l IH]; simpl; [lia|]. destruct (f a); simpl; lia.
Qed.

Lemma length_filter_monotone {A : Type} (f g : A -> bool) (l : list A) :
  (forall a, f a = true -> g a = true) ->
  (length (filter f l) <= length (filter g l))%nat.
Proof.
  intro H. induction l as [|a l IH]; simpl; [lia|].
  destruct (f a) eqn:E.
  - rewrite (H a E). simpl. lia.
  - destruct (g a); simpl; lia.
Qed.

Lemma limb_verdict_monotone (v v' : string -> option bool) related :
  (forall name, v name = Some true -> v' name = Some true) ->
  (forall name, v name = None <-> v' name = None) ->
  limb_verdict v related = true -> limb_verdict v' related = true.
Proof.
  intros Htrue Hnone. unfold limb_verdict.
  destruct related as [|r related]; [reflexivity|].
  rewrite !forallb_forall. intros H name Hin. specialize (H name Hin).
  destruct (v name) as [[|]|] eqn:E.
  - now rewrite (Htrue name E).
  - discriminate.
  - apply Hnone in E. now rewrite E.
Qed.

End ComparisonFacts.

(** X1.  [compare_angles] does not depend on the order of its two angles,
    its difference is never negative, and a pair of angles that matches for
    a threshold matches for every larger one. *)
Theorem compare_angles_symmetric :
  forall (self : Analyzer.DefaultAnalyzer) (a b : option R) (t t' : R),
    Analyzer.compare_angles self a b (Some t)
    = Analyzer.compare_angles self b a (Some t)
    /\ (0 <= snd (Analyzer.compare_angles self a b (Some t)))%R
    /\ ((t <= t')%R ->
        fst (Analyzer.compare_angles self a b (Some t)) = true ->
        fst (Analyzer.compare_angles self a b (Some t')) = true).
Proof.
  intros self a b t t'. unfold Analyzer.compare_angles.
  cbn [Analyzer.threshold_or_default].
  destruct a as [a|], b as [b|]; cbn [fst snd].
  - split; [now rewrite (Rabs_minus_sym a b)|].
    split; [apply Rabs_pos|].
    intros Hle H. apply Rleb_le in H. apply Rleb_le. lra.
  - repeat split; lra.
  - repeat split; lra.
  - repeat split; lra.
Qed.

Lemma compare_angles_symmetric_witness :
  fst (Analyzer.compare_angles Analyzer.new (Some 100%R) (Some 110%R)
         (Some 20%R)) = true.
Proof.
  apply (compare_angles_symmetric Analyzer.new (Some 100%R) (Some 110%R)
           15 20).
  - lra.
  - apply Rleb_le. cbn [Analyzer.threshold_or_default].
    unfold Rabs. destruct (Rcase_abs (100 - 110)); lra.
Defined.

(** X2.  The overall ratio of [compare_poses] lies between 0 and 1, for
    every pair of poses and every threshold. *)
Theorem compare_poses_ratio_bounds :
  forall (self : Analyzer.DefaultAnalyzer) (pose1 pose2 : Models.PoseData)
         (threshold : option R),
    (0 <= snd (Analyzer.compare_poses self pose1 pose2 threshold) <= 1)%R.
Proof.
  intros self pose1 pose2 threshold. unfold Analyzer.compare_poses.
  cbn [snd].
  destruct (Analyzer.valid_angles pose1
              (Analyzer.angle_matches self pose1 pose2
                 (Analyzer.threshold_or_default self threshold)))
    as [|b valid]; [lra|].
  set (l := b :: valid).
  assert (0 < INR (length l))%R as Hpos
    by (apply lt_0_INR; simpl; lia).
  assert (INR (Analyzer.sum_bool l) <= INR (length l))%R as Hle.
  { apply le_INR. rewrite sum_bool_count. apply length_filter_le. }
  assert (0 <= INR (Analyzer.sum_bool l))%R as Hnn by apply pos_INR.
  split.
  - apply Rmult_le_pos; [exact Hnn|]. left. now apply Rinv_0_lt_compat.
  - apply Rmult_le_reg_r with (INR (length l)); [exact Hpos|].
    unfold Rdiv. rewrite Rmult_assoc, Rinv_l by lra. lra.
Qed.

(** X3.  A pose compared with itself, for a threshold that is not negative:
    every limb is matched, the ratio is 1 as soon as one angle is present
    (and 0 when none is), and so is the similarity score. *)
Theorem compare_poses_same :
  forall (self : Analyzer.DefaultAnalyzer) (pose : Models.PoseData) (t : R),
    PyDict.wf (Models.angles pose) ->
    (0 <= t)%R ->
    let present_angle := negb (Nat.eqb (length (Analyzer.present_names pose)) 0) in
    Analyzer.compare_poses self pose pose (Some t)
    = (map (fun entry => (fst entry, true)) Constants.LIMB_TO_ANGLES,
       if present_angle then 1%R else 0%R)
    /\ Analyzer.calculate_similarity_score self pose pose
       = (if present_angle then 1%R else 0%R).
Proof.
  intros self pose t Hwf Ht present_angle. split.
  - unfold Analyzer.compare_poses. cbn [Analyzer.threshold_or_default].
    f_equal.
    + rewrite limb_matches_table. apply map_ext. intros [limb related].
      cbn [fst snd]. f_equal. unfold Analyzer.limb_verdict.
      destruct related as [|r related]; [reflexivity|].
      apply forallb_forall. intros name _.
      rewrite angle_matches_get. unfold Analyzer.angle_verdict.
      destruct (PyDict.mem name (PyDict.keys (Models.angles pose)));
        [|reflexivity].
      now apply verdict_same.
    + rewrite valid_angles_wf by exact Hwf.
      rewrite sum_bool_count, length_filter_map, length_map.
      unfold present_angle.
      assert (filter (Analyzer.verdict self pose pose t)
                     (Analyzer.present_names pose)
              = Analyzer.present_names pose) as ->.
      { induction (Analyzer.present_names pose) as [|n l IH];
          [reflexivity|].
        simpl. rewrite verdict_same by exact Ht. now rewrite IH. }
      destruct (Analyzer.present_names pose) as [|n l]; [reflexivity|].
      cbn [map length Nat.eqb negb].
      apply Rinv_r. apply not_0_INR. discriminate.
  - rewrite score_unfold.
    assert (Analyzer.common_names pose pose = Analyzer.present_names pose)
      as ->.
    { unfold Analyzer.common_names, Analyzer.present_names.
      apply filter_ext. intro name. now rewrite andb_diag. }
    unfold present_angle.
    destruct (Analyzer.present_names pose) as [|n l]; [reflexivity|].
    cbn [length Nat.eqb negb].
    rewrite Rsum_ones.
    + rewrite length_map. apply Rinv_r. apply not_0_INR. discriminate.
    + intros r Hr. apply in_map_iff in Hr. destruct Hr as [name [<- _]].
      unfold Analyzer.diff_of.
      destruct (pyget (Models.angles pose) name) as [a|].
      * replace (a - a)%R with 0%R by lra. rewrite Rabs_R0.
        apply similarity_0.
      * apply similarity_0.
Qed.

Lemma compare_poses_same_witness :
  snd (Analyzer.compare_poses Analyzer.new Analyzer.elbow_reference
         Analyzer.elbow_reference (Some 15%R)) = 1%R.
Proof.
  rewrite (proj1 (compare_poses_same Analyzer.new Analyzer.elbow_reference
                    (t := 15) eq_refl ltac:(lra))).
  reflexivity.
Defined.

(** X4.  Raising the threshold never loses a match: every limb that is
    matched for a threshold is matched for a larger one, and the ratio does
    not decrease. *)
Theorem compare_poses_monotone :
  forall (self : Analyzer.DefaultAnalyzer) (pose1 pose2 : Models.PoseData)
         (t t' : R),
    PyDict.wf (Models.angles pose1) ->
    (t <= t')%R ->
    (forall limb,
        PyDict.get (fst (Analyzer.compare_poses self pose1 pose2 (Some t)))
                   limb = Some true ->
        PyDict.get (fst (Analyzer.compare_poses self pose1 pose2 (Some t')))
                   limb = Some true)
    /\ (snd (Analyzer.compare_poses self pose1 pose2 (Some t))
        <= snd (Analyzer.compare_poses self pose1 pose2 (Some t')))%R.
Proof.
  intros self pose1 pose2 t t' Hwf Hle. split.
  - unfold Analyzer.compare_poses. cbn [Analyzer.threshold_or_default fst].
    rewrite !limb_matches_table. intro limb.
    induction Constants.LIMB_TO_ANGLES as [|[l related] table IH];
      [discriminate|].
    cbn [map PyDict.get fst snd].
    destruct (String.eqb l limb); [|exact IH].
    intro H. inversion H as [H']. rewrite H'. f_equal.
    apply limb_verdict_monotone
      with (v := PyDict.get (Analyzer.angle_matches self pose1 pose2 t));
      [| |exact H'].
    + intro name. rewrite !angle_matches_get. unfold Analyzer.angle_verdict.
      destruct (PyDict.mem name (PyDict.keys (Models.angles pose1)));
        [|discriminate].
      intro Hv. inversion Hv as [Hv']. rewrite Hv'.
      now rewrite (verdict_monotone self pose1 pose2 name Hle Hv').
    + intro name. rewrite !angle_matches_get. unfold Analyzer.angle_verdict.
      destruct (PyDict.mem name (PyDict.keys (Models.angles pose1)));
        split; congruence.
  - unfold Analyzer.compare_poses. cbn [Analyzer.threshold_or_default snd].
    rewrite !valid_angles_wf by exact Hwf.
    rewrite !sum_bool_count, !length_filter_map, !length_map.
    destruct (Analyzer.present_names pose1) as [|n l];
      [cbn; lra|].
    cbn [map].
    assert (0 < INR (length (n :: l)))%R as Hpos
      by (apply lt_0_INR; simpl; lia).
    apply Rmult_le_compat_r; [left; now apply Rinv_0_lt_compat|].
    apply le_INR. apply length_filter_monotone.
    intros name. now apply verdict_monotone.
Qed.

Lemma compare_poses_monotone_witness :
  (snd (Analyzer.compare_poses Analyzer.new Analyzer.elbow_reference
          Analyzer.elbow_candidate (Some 15%R))
   <= snd (Analyzer.compare_poses Analyzer.new Analyzer.elbow_reference
             Analyzer.elbow_candidate (Some 25%R)))%R.
Proof.
  apply (compare_poses_monotone Analyzer.new Analyzer.elbow_reference
           Analyzer.elbow_candidate (t := 15) (t' := 25) eq_refl).
  lra.
Defined.

(** ** Loops that fill a dictionary *)

Section FillFacts.

Variable V : Type.
Variable g : string -> V.
Variable body : PyDict.t V -> string -> PyDict.t V.
Hypothesis body_set : forall acc name, body acc name = PyDict.set acc name (g name).

Lemma fill_get (names : list string) (acc : PyDict.t V) (name : string) :
  PyDict.get (fold_left body names acc) name
  = if PyDict.mem name names then Some (g name) else PyDict.get acc name.
Proof.
  revert acc. induction names as [|n names IH]; intro acc; simpl;
    [reflexivity|].
  rewrite IH, body_set.
  destruct (PyDict.mem name names) eqn:Hm.
  - now rewrite orb_true_r.
  - rewrite orb_false_r. destruct (String.eqb n name) eqn:En.
    + apply String.eqb_eq in En. subst n. apply get_set_same.
    + apply get_set_other. intro. subst n.
      rewrite String.eqb_refl in En. discriminate.
Qed.

Lemma fill_fresh (names : list string) (acc : PyDict.t V) :
  PyDict.nodupb names = true ->
  (forall name, In name names -> PyDict.mem name (PyDict.keys acc) = false) ->
  fold_left body names acc = acc ++ map (fun name => (name, g name)) names.
Proof.
  revert acc. induction names as [|n names IH]; intros acc Hnd Hfresh; simpl.
  - now rewrite app_nil_r.
  - simpl in Hnd. apply andb_true_iff in Hnd. destruct Hnd as [Hn Hnd].
    apply negb_true_iff in Hn.
    rewrite body_set, set_fresh by (apply Hfresh; now left).
    rewrite IH; [now rewrite <- app_assoc | exact Hnd |].
    intros name Hin. unfold PyDict.keys. rewrite map_app. simpl.
    destruct (PyDict.mem name (map fst acc ++ [n])) eqn:Hm; [|reflexivity].
    apply mem_In in Hm. apply in_app_or in Hm. destruct Hm as [Hm | Hm].
    + apply mem_In in Hm. unfold PyDict.keys in Hfresh.
      rewrite Hfresh in Hm by (now right). discriminate.
    + simpl in Hm. destruct Hm as [-> | []].
      apply mem_In in Hin. congruence.
Qed.

End FillFacts.

(** X5.  [get_pose_difference_details] has one entry for each angle name of
    the first pose and none for the other names; an entry holds the two
    values, and a difference exactly when both values are present, which is
    then the difference [compare_angles] reports, never negative; with well
    formed angles the entries come in the order of the first pose. *)
Theorem get_pose_difference_details_spec :
  forall (self : Analyzer.DefaultAnalyzer) (pose1 pose2 : Models.PoseData),
    let details := Analyzer.get_pose_difference_details self pose1 pose2 in
    (forall name,
        PyDict.mem name (PyDict.keys (Models.angles pose1)) = false ->
        PyDict.get details name = None)
    /\ (forall name,
          PyDict.mem name (PyDict.keys (Models.angles pose1)) = true ->
          exists detail,
            PyDict.get details name = Some detail
            /\ Analyzer.angle1 detail = pyget (Models.angles pose1) name
            /\ Analyzer.angle2 detail = pyget (Models.angles pose2) name
            /\ (Analyzer.diff detail = None
                <-> Analyzer.angle1 detail = None
                    \/ Analyzer.angle2 detail = None)
            /\ (forall d t,
                  Analyzer.diff detail = Some d ->
                  (0 <= d)%R
                  /\ Analyzer.compare_angles self (Analyzer.angle1 detail)
                       (Analyzer.angle2 detail) (Some t)
                     = (Analyzer.Rleb d t, d)))
    /\ (PyDict.wf (Models.angles pose1) ->
        PyDict.keys details = PyDict.keys (Models.angles pose1)).
Proof.
  intros self pose1 pose2 details.
  set (g := fun name =>
              let a1 := pyget (Models.angles pose1) name in
              let a2 := pyget (Models.angles pose2) name in
              Analyzer.mkDetail a1 a2
                (match a1, a2 with
                 | Some x, Some y => Some (Rabs (x - y))
                 | _, _ => None
                 end)).
  assert (forall acc name,
             (fun details name =>
                match pyget (Models.angles pose1) name,
                      pyget (Models.angles pose2) name with
                | Some a1, Some a2 =>
                    PyDict.set details name
                      (Analyzer.mkDetail (pyget (Models.angles pose1) name)
                         (pyget (Models.angles pose2) name)
                         (Some (Rabs (a1 - a2))))
                | _, _ =>
                    PyDict.set details name
                      (Analyzer.mkDetail (pyget (Models.angles pose1) name)
                         (pyget (Models.angles pose2) name) None)
                end) acc name
             = PyDict.set acc name (g name)) as Hbody.
  { intros acc name. unfold g. cbv zeta.
    destruct (pyget (Models.angles pose1) name),
             (pyget (Models.angles pose2) name); reflexivity. }
  split; [|split].
  - intros name Hm. unfold details, Analyzer.get_pose_difference_details.
    rewrite (fill_get g _ Hbody). now rewrite Hm.
  - intros name Hm. exists (g name). split.
    + unfold details, Analyzer.get_pose_difference_details.
      rewrite (fill_get g _ Hbody). now rewrite Hm.
    + unfold g. cbv zeta. cbn [Analyzer.angle1 Analyzer.angle2 Analyzer.diff].
      split; [reflexivity|]. split; [reflexivity|].
      destruct (pyget (Models.angles pose1) name) as [x|],
               (pyget (Models.angles pose2) name) as [y|].
      * split; [split; [discriminate | intros [H|H]; discriminate]|].
        intros d t H. inversion H; subst d.
        split; [apply Rabs_pos | reflexivity].
      * split; [split; [now right | reflexivity] | discriminate].
      * split; [split; [now left | reflexivity] | discriminate].
      * split; [split; [now left | reflexivity] | discriminate].
  - intro Hwf. unfold details, Analyzer.get_pose_difference_details.
    rewrite (fill_fresh g _ Hbody); [| exact Hwf | reflexivity].
    cbn [app]. unfold PyDict.keys, PyDict.empty. cbn [app].
    rewrite map_map. cbn [fst]. apply map_id.
Qed.

Lemma get_pose_difference_details_spec_witness :
  PyDict.keys (Analyzer.get_pose_difference_details Analyzer.new
                 Analyzer.elbow_reference Analyzer.elbow_candidate)
  = PyDict.keys (Models.angles Analyzer.elbow_reference).
Proof.
  apply (get_pose_difference_details_spec Analyzer.new
           Analyzer.elbow_reference Analyzer.elbow_candidate).
  reflexivity.
Defined.

(** ** Extraction of the angles *)

Section ExtractFacts.

Import Models Analyzer.

Variable self : DefaultAnalyzer.
Variable landmarks : list Landmark.

Lemma index_in_range (i : nat) :
  i < length landmarks -> exists p, nth_error landmarks i = Some p.
Proof.
  intro H. destruct (nth_error landmarks i) as [p|] eqn:E; [now exists p|].
  apply nth_error_None in E. lia.
Qed.

Lemma index_out_of_range (i : nat) :
  length landmarks <= i -> index landmarks i = Raised (OtherError "IndexError").
Proof.
  intro H. unfold index. now rewrite (proj2 (nth_error_None landmarks i) H).
Qed.

Lemma extract_loop_raises joints :
  forall acc,
    (exists entry, In entry joints /\ length landmarks <= reach entry) ->
    extract_loop self landmarks joints acc = Raised (OtherError "IndexError").
Proof.
  induction joints as [|[[[joint point1] point2] name] rest IH];
    intros acc (entry & Hin & Hreach); [destruct Hin|].
  cbn [extract_loop].
  destruct (le_lt_dec (length landmarks) (Constants.value joint)) as [H0|H0].
  { now rewrite (index_out_of_range H0). }
  destruct (index_in_range H0) as (pj & Ej).
  unfold index at 1. rewrite Ej.
  destruct (le_lt_dec (length landmarks) (Constants.value point1)) as [H1|H1].
  { now rewrite (index_out_of_range H1). }
  destruct (index_in_range H1) as (p1 & E1).
  unfold index at 1. rewrite E1.
  destruct (le_lt_dec (length landmarks) (Constants.value point2)) as [H2|H2].
  { now rewrite (index_out_of_range H2). }
  destruct (index_in_range H2) as (p2 & E2).
  unfold index at 1. rewrite E2.
  assert (exists entry, In entry rest /\ length landmarks <= reach entry)
    as Hrest.
  { destruct Hin as [<- | Hin]; [|now exists entry].
    cbn [reach] in Hreach. lia. }
  destruct (_ && _); now apply IH.
Qed.

Lemma extract_loop_returns joints :
  forall acc,
    (forall entry, In entry joints -> reach entry < length landmarks) ->
    PyDict.nodupb (map snd joints) = true ->
    (forall entry, In entry joints ->
                   PyDict.mem (snd entry) (PyDict.keys acc) = false) ->
    extract_loop self landmarks joints acc
    = Returned (acc ++ map (fun entry =>
                              (snd entry, joint_value self landmarks entry))
                           joints).
Proof.
  induction joints as [|[[[joint point1] point2] name] rest IH];
    intros acc Hreach Hnd Hfresh.
  - cbn. now rewrite app_nil_r.
  - cbn [extract_loop].
    pose proof (Hreach _ (or_introl eq_refl)) as Hr. cbn [reach] in Hr.
    destruct (@index_in_range (Constants.value joint)) as (pj & Ej); [lia|].
    destruct (@index_in_range (Constants.value point1)) as (p1 & E1); [lia|].
    destruct (@index_in_range (Constants.value point2)) as (p2 & E2); [lia|].
    unfold index. rewrite Ej, E1, E2.
    cbn [map snd] in Hnd. cbn [PyDict.nodupb] in Hnd.
    apply andb_true_iff in Hnd. destruct Hnd as [Hn Hnd].
    apply negb_true_iff in Hn.
    pose proof (Hfresh _ (or_introl eq_refl)) as Hhead. cbn [snd] in Hhead.
    assert (forall v entry, In entry rest ->
              PyDict.mem (snd entry) (PyDict.keys (acc ++ [(name, v)]))
              = false) as Hnext.
    { intros v entry Hin. unfold PyDict.keys. rewrite map_app. cbn [map fst].
      destruct (PyDict.mem (snd entry) (map fst acc ++ [name])) eqn:Hm;
        [|reflexivity].
      apply mem_In in Hm. apply in_app_or in Hm. destruct Hm as [Hm | Hm].
      - apply mem_In in Hm. pose proof (Hfresh _ (or_intror Hin)) as Hf.
        unfold PyDict.keys in Hf. congruence.
      - destruct Hm as [Hm | []].
        assert (In name (map snd rest)) as Hin'.
        { rewrite Hm. now apply in_map. }
        apply mem_In in Hin'. congruence. }
    cbn [map]. unfold joint_value at 1. rewrite Ej, E1, E2. cbn [snd].
    destruct (_ && _).
    + rewrite set_fresh by exact Hhead.
      rewrite IH; [now rewrite <- app_assoc | | exact Hnd | apply Hnext].
      intros entry Hin. apply Hreach. now right.
    + rewrite set_fresh by exact Hhead.
      rewrite IH; [now rewrite <- app_assoc | | exact Hnd | apply Hnext].
      intros entry Hin. apply Hreach. now right.
Qed.

Lemma joint_value_bounds entry a :
  joint_value self landmarks entry = Some a -> (0 <= a <= 180)%R.
Proof.
  destruct entry as [[[joint point1] point2] name]. unfold joint_value.
  destruct (nth_error landmarks (Constants.value joint)) as [pj|];
    [|discriminate].
  destruct (nth_error landmarks (Constants.value point1)) as [p1|];
    [|discriminate].
  destruct (nth_error landmarks (Constants.value point2)) as [p2|];
    [|discriminate].
  destruct (_ && _); [|discriminate].
  intro H. inversion H; subst a. unfold calculate_angle. cbv zeta.
  destruct (_ || _); [lra | apply degrees_acos_bounds].
Qed.

Lemma table_reach entry :
  In entry Constants.ANGLE_JOINTS -> reach entry < 29.
Proof.
  intro H. cbn in H.
  repeat (destruct H as [<- | H]; [cbn; lia|]). destruct H.
Qed.

End ExtractFacts.

(** X6.  [extract_pose_angles] raises [IndexError] on fewer than 29
    landmarks and returns on 29 or more.  The dictionary it returns has the
    names of the table of joints as its keys, in the order of the table; the
    value of a name is the angle at the joint of its entry when the joint
    and the two end points all have a visibility above 0.5, and [None]
    otherwise; every angle in it lies between 0 and 180 degrees. *)
Theorem extract_pose_angles_spec :
  forall (self : Analyzer.DefaultAnalyzer) (landmarks : list Models.Landmark),
    (length landmarks < 29 ->
     Analyzer.extract_pose_angles self landmarks
     = Raised (OtherError "IndexError"))
    /\ (29 <= length landmarks ->
        exists angles,
          Analyzer.extract_pose_angles self landmarks = Returned angles
          /\ PyDict.keys angles = Analyzer.angle_names
          /\ (forall joint point1 point2 name,
                In (joint, point1, point2, name) Constants.ANGLE_JOINTS ->
                exists p_joint p1 p2,
                  nth_error landmarks (Constants.value joint) = Some p_joint
                  /\ nth_error landmarks (Constants.value point1) = Some p1
                  /\ nth_error landmarks (Constants.value point2) = Some p2
                  /\ ((1/2 < Models.visibility p_joint
                       /\ 1/2 < Models.visibility p1
                       /\ 1/2 < Models.visibility p2)%R ->
                      PyDict.get angles name
                      = Some (Some (Analyzer.calculate_angle self p1 p_joint
                                      p2)))
                  /\ (~ (1/2 < Models.visibility p_joint
                         /\ 1/2 < Models.visibility p1
                         /\ 1/2 < Models.visibility p2)%R ->
                      PyDict.get angles name = Some None))
          /\ (forall name a,
                PyDict.get angles name = Some (Some a) ->
                (0 <= a <= 180)%R)).
Proof.
  intros self landmarks. split.
  - intro Hlen. unfold Analyzer.extract_pose_angles.
    apply extract_loop_raises.
    exists (Constants.RIGHT_KNEE, Constants.RIGHT_HIP, Constants.RIGHT_ANKLE,
            "右膝角度"%string).
    split; [cbn; tauto | cbn; lia].
  - intro Hlen.
    assert (Analyzer.extract_pose_angles self landmarks
            = Returned
                (map (fun entry =>
                        (snd entry, Analyzer.joint_value self landmarks entry))
                   Constants.ANGLE_JOINTS)) as Hret.
    { unfold Analyzer.extract_pose_angles.
      rewrite extract_loop_returns; [reflexivity | | reflexivity |].
      - intros entry Hin. pose proof (@table_reach entry Hin). lia.
      - reflexivity. }
    eexists. split; [exact Hret|]. split; [|split].
    + unfold PyDict.keys, Analyzer.angle_names. rewrite map_map.
      reflexivity.
    + intros joint point1 point2 name Hin.
      pose proof (@table_reach _ Hin) as Hr. cbn [Analyzer.reach] in Hr.
      destruct (@index_in_range landmarks (Constants.value joint))
        as (pj & Ej); [lia|].
      destruct (@index_in_range landmarks (Constants.value point1))
        as (p1 & E1); [lia|].
      destruct (@index_in_range landmarks (Constants.value point2))
        as (p2 & E2); [lia|].
      exists pj, p1, p2. split; [exact Ej|]. split; [exact E1|].
      split; [exact E2|].
      assert (PyDict.get
                (map (fun entry =>
                        (snd entry, Analyzer.joint_value self landmarks entry))
                   Constants.ANGLE_JOINTS) name
              = Some (Analyzer.joint_value self landmarks
                        (joint, point1, point2, name))) as Hget.
      { cbn in Hin.
        repeat (destruct Hin as [Hin | Hin];
                [inversion Hin; subst; reflexivity|]).
        destruct Hin. }
      rewrite Hget. unfold Analyzer.joint_value. rewrite Ej, E1, E2.
      destruct (Analyzer.Rltb (1/2) (Models.visibility pj)) eqn:Vj;
        destruct (Analyzer.Rltb (1/2) (Models.visibility p1)) eqn:V1;
        destruct (Analyzer.Rltb (1/2) (Models.visibility p2)) eqn:V2;
        cbn [andb].
      all: split; [intros (Hj & H1 & H2) | intro Hnot]; try reflexivity.
      all: try (apply Rltb_lt in Hj; congruence).
      all: try (apply Rltb_lt in H1; congruence).
      all: try (apply Rltb_lt in H2; congruence).
      exfalso. apply Hnot. now rewrite <- !Rltb_lt.
    + intros name a Hget.
      apply get_Some_In in Hget. apply in_map_iff in Hget.
      destruct Hget as (entry & Heq & _).
      apply (@joint_value_bounds self landmarks entry). congruence.
Qed.

Lemma extract_pose_angles_spec_witness :
  exists angles,
    Analyzer.extract_pose_angles Analyzer.new Analyzer.still_landmarks
    = Returned angles
    /\ PyDict.keys angles = Analyzer.angle_names.
Proof.
  destruct (proj2 (extract_pose_angles_spec Analyzer.new
                     Analyzer.still_landmarks))
    as (angles & Hret & Hkeys & _).
  - cbn. lia.
  - exists angles. now split.
Defined.

(** ** The geometry of [calculate_angle] *)

Section GeometryFacts.

Import Models Analyzer.
Local Open Scope R_scope.









End GeometryFacts.







(** ** Registration and lookup *)

Section RegistryLookup.

Import Registry.
Local Open Scope string_scope.

Variable Cls : Type.
Variable import_class : string -> string -> outcome (option Cls).

Local Abbreviation Reg := (Registry Cls).
Local Abbreviation Info := (ComponentInfo Cls).

(** [get] by cases on the descriptor, its class and the loader. *)
Lemma get_cases (self : Reg) category n :
  get import_class category n self
  = match PyDict.get (components_of self category) n with
    | None => (Returned None, self)
    | Some info =>
        match cls info with
        | Some c => (Returned (Some c), self)
        | None =>
            match PyDict.get (_lazy_imports self) (category ++ "." ++ n) with
            | None => (Returned None, self)
            | Some (import_path, class_name) =>
                match import_class import_path class_name with
                | Returned loaded =>
                    (Returned loaded, set_cls self category n info loaded)
                | Raised e => (Raised e, self)
                end
            end
        end
    end.
Proof.
  unfold get.
  destruct (PyDict.get (_lazy_imports self) (category ++ "." ++ n))
    as [[import_path class_name]|] eqn:El.
  2:{ destruct (PyDict.get (components_of self category) n) as [info|];
        [|reflexivity].
      now destruct (cls info). }
  destruct (PyDict.get (components_of self category) n) as [info|] eqn:Ei.
  2:{ now rewrite Ei. }
  destruct (cls info) eqn:Ec.
  { rewrite Ei. now rewrite Ec. }
  destruct (import_class import_path class_name) as [loaded|e];
    [|reflexivity].
  rewrite components_of_set_cls, get_set_same. reflexivity.
Qed.

Lemma slot_store (comps : PyDict.t (PyDict.t Info)) category n (info : Info)
    c n' :
  PyDict.get (PyDict.get_or (store comps category n info) c PyDict.empty) n'
  = if String.eqb category c && String.eqb n n' then Some info
    else PyDict.get (PyDict.get_or comps c PyDict.empty) n'.
Proof.
  rewrite get_or_store.
  destruct (String.eqb category c) eqn:Ec; [|reflexivity].
  apply String.eqb_eq in Ec. subst c. cbn [andb].
  destruct (String.eqb n n') eqn:En.
  - apply String.eqb_eq in En. subst n'. apply get_set_same.
  - apply get_set_other. intro. subst n'.
    rewrite String.eqb_refl in En. discriminate.
Qed.

Lemma pair_differs (category n c n' : string) :
  (c, n') <> (category, n) ->
  String.eqb category c && String.eqb n n' = false.
Proof.
  intro Hne. destruct (String.eqb category c) eqn:Ec; [|reflexivity].
  destruct (String.eqb n n') eqn:En; [|reflexivity].
  apply String.eqb_eq in Ec, En. subst. now contradiction Hne.
Qed.

(** The answer of [get] is a function of the descriptor and the loader it
    finds. *)
Lemma get_same_slot (self self' : Reg) category n :
  PyDict.get (components_of self' category) n
  = PyDict.get (components_of self category) n ->
  PyDict.get (_lazy_imports self') (category ++ "." ++ n)
  = PyDict.get (_lazy_imports self) (category ++ "." ++ n) ->
  fst (get import_class category n self')
  = fst (get import_class category n self).
Proof.
  intros Hslot Hlazy. rewrite !get_cases, Hslot, Hlazy.
  destruct (PyDict.get (components_of self category) n) as [info|];
    [|reflexivity].
  destruct (cls info); [reflexivity|].
  destruct (PyDict.get (_lazy_imports self) (category ++ "." ++ n))
    as [[import_path class_name]|]; [|reflexivity].
  now destruct (import_class import_path class_name).
Qed.

Lemma components_of_clear (self : Reg) category :
  components_of (clear self) category = [].
Proof.
  unfold components_of, clear, PyDict.get_or. cbn [_components].
  induction (_components self) as [|[k v] comps IH]; [reflexivity|].
  cbn. now destruct (String.eqb k category).
Qed.

End RegistryLookup.

(** X10.  After [register], [get] of the registered category and name
    answers the registered class and changes nothing, whatever was
    registered under that name before and whatever the loader would do;
    [get] of every other category or name answers as it did before the
    registration. *)
Theorem register_get :
  forall (Cls : Type) (import_class : string -> string -> outcome (option Cls))
         (self : Registry.Registry Cls) (category name : string) (cls : Cls)
         (description : string) (is_default : bool),
    let registered :=
      Registry.register self category name cls description is_default in
    Registry.get import_class category name registered
    = (Returned (Some cls), registered)
    /\ (forall category' name',
          (category', name') <> (category, name) ->
          fst (Registry.get import_class category' name' registered)
          = fst (Registry.get import_class category' name' self)).
Proof.
  intros Cls import_class self category name cls description is_default
         registered.
  split.
  - rewrite get_cases. unfold registered, Registry.components_of,
      Registry.register. cbn [Registry._components].
    rewrite slot_store, !String.eqb_refl. reflexivity.
  - intros category' name' Hne. apply get_same_slot; [|reflexivity].
    unfold registered, Registry.components_of, Registry.register.
    cbn [Registry._components].
    now rewrite slot_store, pair_differs.
Qed.

Lemma register_get_witness :
  (fst (Registry.get Registry.no_module "analyzer" "First"
          Registry.two_analyzers)
   = fst (Registry.get Registry.no_module "analyzer" "First"
            (Registry.register Registry.new "analyzer" "First"
               "FirstAnalyzer" "" false)))%string.
Proof.
  apply (proj2 (register_get (@Registry.no_module string)
                  (Registry.register Registry.new "analyzer" "First"
                     "FirstAnalyzer"%string "" false)
                  "analyzer" "Second" "SecondAnalyzer"%string "" true)).
  discriminate.
Defined.

(** X11.  After [register_lazy], the first [get] of the registered category
    and name runs the loader on the registered module path and class name.
    When the loader raises, [get] raises the same exception and the registry
    is unchanged.  When the loader finds a class, [get] answers it and from
    then on answers it without the loader.  When the loader finds [None],
    [get] answers [None] and the next [get] runs the loader again. *)
Theorem register_lazy_get :
  forall (Cls : Type)
         (import_class later : string -> string -> outcome (option Cls))
         (self : Registry.Registry Cls)
         (category name import_path class_name description : string)
         (is_default : bool),
    let registered :=
      Registry.register_lazy self category name import_path class_name
        description is_default in
    let first := Registry.get import_class category name registered in
    fst first = import_class import_path class_name
    /\ (forall e,
          import_class import_path class_name = Raised e ->
          snd first = registered)
    /\ (forall cls,
          import_class import_path class_name = Returned (Some cls) ->
          Registry.get later category name (snd first)
          = (Returned (Some cls), snd first))
    /\ (import_class import_path class_name = Returned None ->
        fst (Registry.get later category name (snd first))
        = later import_path class_name).
Proof.
  intros Cls import_class later self category name import_path class_name
         description is_default registered first.
  assert (PyDict.get (Registry.components_of registered category) name
          = Some (Registry.mkComponentInfo name None description category
                    is_default)) as Hslot.
  { unfold registered, Registry.components_of, Registry.register_lazy.
    cbn [Registry._components].
    rewrite slot_store, !String.eqb_refl. reflexivity. }
  assert (PyDict.get (Registry._lazy_imports registered)
            (category ++ "." ++ name) = Some (import_path, class_name))
    as Hlazy.
  { unfold registered, Registry.register_lazy. cbn [Registry._lazy_imports].
    apply get_set_same. }
  assert (first
          = match import_class import_path class_name with
            | Returned loaded =>
                (Returned loaded,
                 Registry.set_cls registered category name
                   (Registry.mkComponentInfo name None description category
                      is_default) loaded)
            | Raised e => (Raised e, registered)
            end) as Hfirst.
  { unfold first. rewrite get_cases, Hslot. cbn [Registry.cls].
    now rewrite Hlazy. }
  rewrite Hfirst.
  split; [now destruct (import_class import_path class_name)|].
  split; [now intros e ->|].
  split.
  - intros cls ->. cbn [snd]. rewrite get_cases.
    rewrite components_of_set_cls, get_set_same. reflexivity.
  - intros ->. cbn [snd]. rewrite get_cases.
    rewrite components_of_set_cls, get_set_same.
    cbn [Registry.cls Registry.with_cls].
    change (Registry._lazy_imports
              (Registry.set_cls registered category name
                 (Registry.mkComponentInfo name None description category
                    is_default) None))
      with (Registry._lazy_imports registered).
    rewrite Hlazy. now destruct (later import_path class_name).
Qed.

Lemma register_lazy_get_witness :
  (exists registry,
      Registry.get Registry.no_module "detector" "heavy"
        (snd (Registry.get Registry.by_path "detector" "heavy"
                (Registry.register_lazy Registry.new "detector" "heavy"
                   "src.deps.heavy" "Heavy" "" true)))
      = (Returned (Some "src.deps.heavy.Heavy"), registry))%string.
Proof.
  eexists.
  apply (proj1 (proj2 (proj2
           (register_lazy_get Registry.by_path (@Registry.no_module string)
              Registry.new "detector" "heavy" "src.deps.heavy" "Heavy" ""
              true)))).
  reflexivity.
Defined.

(** X12.  The loaders are stored under the text [category.name].  A deferred
    registration leaves the answers of [get] for every category and name
    with another text as they were; but a deferred registration under
    another category with the same text replaces the loader of a component
    that is not loaded yet, whose [get] then runs the loader of the other
    registration. *)
Theorem register_lazy_key :
  forall (Cls : Type) (import_class : string -> string -> outcome (option Cls))
         (self : Registry.Registry Cls)
         (category name import_path class_name description : string)
         (is_default : bool),
    let registered :=
      Registry.register_lazy self category name import_path class_name
        description is_default in
    (forall category' name',
        (category' ++ "." ++ name' <> category ++ "." ++ name)%string ->
        fst (Registry.get import_class category' name' registered)
        = fst (Registry.get import_class category' name' self))
    /\ (forall category' name' info,
          (category' ++ "." ++ name' = category ++ "." ++ name)%string ->
          category' <> category ->
          PyDict.get (Registry.components_of self category') name'
          = Some info ->
          Registry.cls info = None ->
          fst (Registry.get import_class category' name' registered)
          = import_class import_path class_name).
Proof.
  intros Cls import_class self category name import_path class_name
         description is_default registered.
  split.
  - intros category' name' Hkey. apply get_same_slot.
    + unfold registered, Registry.components_of, Registry.register_lazy.
      cbn [Registry._components]. rewrite slot_store, pair_differs;
        [reflexivity|].
      intro H. inversion H; subst. now contradiction Hkey.
    + unfold registered, Registry.register_lazy.
      cbn [Registry._lazy_imports]. apply get_set_other.
      intro H. now contradiction Hkey.
  - intros category' name' info Hkey Hne Hslot Hcls.
    rewrite get_cases.
    assert (PyDict.get (Registry.components_of registered category') name'
            = Some info) as ->.
    { unfold registered, Registry.components_of, Registry.register_lazy.
      cbn [Registry._components]. rewrite slot_store, pair_differs;
        [exact Hslot|].
      intro H. inversion H; subst. now contradiction Hne. }
    rewrite Hcls, Hkey. unfold registered, Registry.register_lazy.
    cbn [Registry._lazy_imports]. rewrite get_set_same.
    now destruct (import_class import_path class_name).
Qed.

Lemma register_lazy_key_witness :
  (fst (Registry.get Registry.by_path "a" "b.c"
          (Registry.register_lazy
             (Registry.register_lazy Registry.new "a" "b.c" "first" "First"
                "" false)
             "a.b" "c" "second" "Second" "" false))
   = Returned (Some "second.Second"))%string.
Proof.
  apply (proj2 (register_lazy_key Registry.by_path
                  (Registry.register_lazy Registry.new "a" "b.c" "first"
                     "First" "" false)
                  "a.b" "c" "second" "Second" "" false)
           "a"%string "b.c"%string
           (Registry.mkComponentInfo "b.c" None "" "a" false));
    [reflexivity | discriminate | reflexivity | reflexivity].
Defined.

(** X13.  After [clear] the registry has the categories it had, every
    category is empty and no loader is left: [get], [get_default] and
    [get_default_info] answer [None] for every category and name, and
    change nothing. *)
Theorem clear_forgets :
  forall (Cls : Type) (import_class : string -> string -> outcome (option Cls))
         (self : Registry.Registry Cls) (category name : string),
    let cleared := Registry.clear self in
    PyDict.keys (Registry._components cleared)
    = PyDict.keys (Registry._components self)
    /\ Registry.list_components cleared category = []
    /\ Registry._lazy_imports cleared = []
    /\ Registry.get import_class category name cleared
       = (Returned None, cleared)
    /\ Registry.get_default import_class category cleared
       = (Returned None, cleared)
    /\ Registry.get_default_info cleared category = None.
Proof.
  intros Cls import_class self category name cleared.
  pose proof (components_of_clear self category) as Hempty.
  fold cleared in Hempty.
  split; [|split; [|split; [|split; [|split]]]].
  - unfold cleared, Registry.clear, PyDict.keys. cbn [Registry._components].
    rewrite map_map. reflexivity.
  - exact Hempty.
  - reflexivity.
  - rewrite get_cases, Hempty. reflexivity.
  - unfold Registry.get_default. rewrite Hempty. reflexivity.
  - unfold Registry.get_default_info. rewrite Hempty. reflexivity.
Qed.

(** X14.  In a registry that satisfies its invariants, [get_default_info]
    answers [None] exactly for an empty category, and otherwise a
    descriptor of the category which is stored under its own name and
    whose factory is the answer of [get_default]. *)
Theorem get_default_info_spec :
  forall (Cls : Type) (import_class : string -> string -> outcome (option Cls))
         (self : Registry.Registry Cls) (category : string),
    Registry.wf self -> Registry.names_agree self ->
    match Registry.get_default_info self category with
    | Some info =>
        PyDict.get (Registry.components_of self category)
          (Registry.name info) = Some info
        /\ fst (Registry.get_default import_class category self)
           = Registry.factory_of import_class self category info
    | None =>
        Registry.components_of self category = []
        /\ Registry.get_default import_class category self
           = (Returned None, self)
    end.
Proof.
  intros Cls import_class self category Hwf Hnames.
  unfold Registry.get_default_info, Registry.get_default.
  destruct (find (@Registry.is_default Cls)
              (PyDict.values (Registry.components_of self category)))
    as [info|] eqn:Ef.
  - apply find_some in Ef. destruct Ef as [Hin _].
    pose proof (get_of_value category info Hwf Hnames Hin) as Hget.
    split; [exact Hget|]. now apply get_factory_of.
  - destruct (Registry.components_of self category) as [|[k v] rest] eqn:Ec.
    + now split.
    + cbn [PyDict.keys map fst].
      assert (PyDict.get ((k, v) :: rest) k = Some v) as ->
        by (cbn [PyDict.get]; now rewrite String.eqb_refl).
      rewrite <- Ec.
      assert (In v (PyDict.values (Registry.components_of self category)))
        as Hin by (rewrite Ec; now left).
      pose proof (get_of_value category v Hwf Hnames Hin) as Hget.
      assert (Registry.name v = k) as Hname.
      { rewrite Ec in Hget. cbn [PyDict.get] in Hget.
        destruct (String.eqb k (Registry.name v)) eqn:E.
        - apply String.eqb_eq in E. now symmetry.
        - destruct Hwf as [_ Hinner].
          assert (PyDict.nodupb
                    (PyDict.keys (Registry.components_of self category))
                  = true) as Hnd.
          { apply (inner_ok_get_or
                     (fun inner => PyDict.nodupb (PyDict.keys inner)));
              [reflexivity | exact Hinner]. }
          unfold Registry.names_agree in Hnames.
          assert (forallb (fun item : string * Registry.ComponentInfo Cls =>
                             String.eqb (Registry.name (snd item)) (fst item))
                          (Registry.components_of self category) = true)
            as Hn.
          { apply (inner_ok_get_or
                     (fun inner =>
                        forallb (fun item =>
                                   String.eqb (Registry.name (snd item))
                                     (fst item)) inner));
              [reflexivity | exact Hnames]. }
          rewrite Ec in Hn. cbn in Hn. apply andb_true_iff in Hn.
          destruct Hn as [Hn _]. now apply String.eqb_eq in Hn. }
      split; [exact Hget|].
      apply get_factory_of; [|exact Hname].
      rewrite <- Hname. exact Hget.
Qed.

Lemma get_default_info_spec_witness :
  exists info,
    Registry.get_default_info Registry.two_analyzers "analyzer"%string
    = Some info
    /\ fst (Registry.get_default Registry.no_module "analyzer"%string
              Registry.two_analyzers)
       = Registry.factory_of Registry.no_module Registry.two_analyzers
           "analyzer"%string info.
Proof.
  assert (Registry.wf Registry.two_analyzers) as Hwf by (repeat split).
  assert (Registry.names_agree Registry.two_analyzers) as Hnames
    by reflexivity.
  generalize (@get_default_info_spec string Registry.no_module
                Registry.two_analyzers "analyzer"%string Hwf Hnames).
  destruct (Registry.get_default_info Registry.two_analyzers
              "analyzer"%string) as [info|].
  - intros [_ H]. exists info. split; [reflexivity | exact H].
  - intros [H _]. discriminate H.
Defined.

(** ** Reading and writing the configuration *)

Section ConfigAccess.

Import Config.
Local Open Scope string_scope.

Lemma key_eqb_str (k0 : PyVal) (k : string) :
  key_eqb k0 (VStr k) = true -> k0 = VStr k.
Proof.
  destruct k0 as [|b|n|r|s|l|l|d]; cbn; try discriminate.
  intro H. apply String.eqb_eq in H. now subst.
Qed.

Lemma custom_get_set (d : CustomDict) (k k' : string) (v : PyVal) :
  custom_get (custom_set d (VStr k) v) (VStr k')
  = if k =? k' then Some v else custom_get d (VStr k').
Proof.
  induction d as [|[k0 v0] d IH]; cbn [custom_set custom_get].
  - cbn. now destruct (k =? k').
  - destruct (key_eqb k0 (VStr k)) eqn:E.
    + apply key_eqb_str in E. subst k0. cbn [custom_get].
      change (key_eqb (VStr k) (VStr k')) with (k =? k').
      now destruct (k =? k').
    + cbn [custom_get]. rewrite IH.
      destruct (k =? k') eqn:Ek; [|reflexivity].
      apply String.eqb_eq in Ek. subst k'. now rewrite E.
Qed.

Lemma section_obj_In (self : DefaultConfig) (section : string)
    (obj : DataObject) :
  section_obj self section = Some obj -> In section sections.
Proof.
  unfold section_obj, sections.
  destruct (String.eqb_spec section "detector"); [subst; cbn; tauto|].
  destruct (String.eqb_spec section "analyzer"); [subst; cbn; tauto|].
  destruct (String.eqb_spec section "render"); [subst; cbn; tauto|].
  destruct (String.eqb_spec section "window"); [subst; cbn; tauto|].
  destruct (String.eqb_spec section "colors"); [subst; cbn; tauto|].
  discriminate.
Qed.

Lemma In_section_obj (self : DefaultConfig) (section : string) :
  In section sections -> exists obj, section_obj self section = Some obj.
Proof.
  unfold sections. cbn.
  intros [<- | [<- | [<- | [<- | [<- | []]]]]]; eexists; reflexivity.
Qed.

Lemma section_obj_with_section (self : DefaultConfig) (section section' : string)
    (obj obj' : DataObject) :
  section_obj self section = Some obj ->
  section_obj (with_section self section obj') section'
  = if section =? section' then Some obj' else section_obj self section'.
Proof.
  intro H. apply section_obj_In in H. unfold sections in H. cbn in H.
  destruct H as [<- | [<- | [<- | [<- | [<- | []]]]]];
    unfold section_obj, with_section;
    cbn [_detector _analyzer _render _window _colors];
    destruct (String.eqb_spec section' "detector");
    destruct (String.eqb_spec section' "analyzer");
    destruct (String.eqb_spec section' "render");
    destruct (String.eqb_spec section' "window");
    destruct (String.eqb_spec section' "colors");
    subst; try discriminate; try reflexivity;
    match goal with
    | |- context [String.eqb ?a ?b] =>
        destruct (String.eqb_spec a b); [congruence | reflexivity]
    end.
Qed.

Lemma section_obj_with_custom (self : DefaultConfig) (d : CustomDict)
    (section : string) :
  section_obj (with_custom self d) section = section_obj self section.
Proof. reflexivity. Qed.

Lemma custom_with_section (self : DefaultConfig) (section : string)
    (obj : DataObject) :
  _custom (with_section self section obj) = _custom self.
Proof. reflexivity. Qed.









End ConfigAccess.

(** X15.  [get] after [set] with the same key.  A key without dot that is
    neither the name of a section nor [custom], and for which the class of
    the configuration has no attribute with the underscore in front, gives
    back the value that was set.  A dotted key whose first two parts are a
    section and one of its fields gives back the value that was set.  A key
    that is the name of a section is written into the custom dictionary,
    but [get] answers the object of the section, as before. *)
Theorem set_get :
  forall (inherited : list string -> bool) (self : Config.DefaultConfig)
         (key : string) (value default : Config.PyVal),
    (Config.no_dot key = true ->
     ~ In key ("custom"%string :: Config.sections) ->
     inherited [("_" ++ key)%string] = false ->
     Config.get inherited (Config.set self key value) key default
     = Config.Value value)
    /\ (forall section attr rest,
          Config.split "." key = section :: attr :: rest ->
          Config.has_field self section attr = true ->
          Config.get inherited (Config.set self key value) key default
          = Config.Value value)
    /\ (In key Config.sections ->
        exists obj,
          Config.section_obj self key = Some obj
          /\ Config.get inherited (Config.set self key value) key default
             = Config.SectionObject obj
          /\ Config.custom_get (Config._custom (Config.set self key value))
               (Config.VStr key) = Some value).
Proof.
  intros inherited self key value default. split; [|split].
  - intros Hdot Hnot Hinh.
    unfold Config.set, Config.get. rewrite (@split_no_sep _ _ Hdot).
    rewrite section_obj_with_custom.
    destruct (Config.section_obj self key) as [obj|] eqn:E.
    { apply section_obj_In in E. contradiction Hnot. now right. }
    destruct (String.eqb_spec key "custom") as [->|_].
    { contradiction Hnot. now left. }
    rewrite Hinh. cbn [Config._custom Config.with_custom].
    now rewrite custom_get_set, String.eqb_refl.
  - intros section attr rest Hsplit Hfield.
    unfold Config.set, Config.get. rewrite Hsplit.
    unfold Config.has_field in Hfield.
    destruct (Config.section_obj self section) as [obj|] eqn:E;
      [|discriminate].
    rewrite Hfield.
    rewrite (@section_obj_with_section _ _ section _ _ E), String.eqb_refl.
    unfold Config.setattr. now rewrite get_set_same.
  - intro Hin. pose proof (@sections_no_dot _ Hin) as Hdot.
    destruct (@In_section_obj self _ Hin) as (obj & E).
    exists obj. split; [exact E|].
    unfold Config.set, Config.get. rewrite (@split_no_sep _ _ Hdot).
    rewrite section_obj_with_custom, E. split; [reflexivity|].
    cbn [Config._custom Config.with_custom].
    now rewrite custom_get_set, String.eqb_refl.
Qed.

Lemma set_get_witness :
  Config.get Config.nothing_inherited
    (Config.set Config.new "analyzer.angle_threshold"%string
       (Config.VFloat 20))
    "analyzer.angle_threshold"%string Config.VNone
  = Config.Value (Config.VFloat 20).
Proof.
  apply (proj1 (proj2 (set_get Config.nothing_inherited Config.new
                         "analyzer.angle_threshold"%string
                         (Config.VFloat 20) Config.VNone))
           "analyzer"%string "angle_threshold"%string []);
    reflexivity.
Defined.

(** X16.  [get] of another key after [set].  After [set] with a key without
    dot, [get] answers as before for every other key but [custom]; after
    [set] with a key that addresses a field of a section, [get] answers as
    before for every key that addresses neither this field nor the object
    of this section. *)
Theorem set_get_other :
  forall (inherited : list string -> bool) (self : Config.DefaultConfig)
         (key key' : string) (value default : Config.PyVal),
    (Config.no_dot key = true ->
     key' <> key -> key' <> "custom"%string ->
     Config.get inherited (Config.set self key value) key' default
     = Config.get inherited self key' default)
    /\ (forall section attr rest,
          Config.split "." key = section :: attr :: rest ->
          Config.has_field self section attr = true ->
          Config.address key' <> (section, Some attr) ->
          Config.address key' <> (section, None) ->
          Config.get inherited (Config.set self key value) key' default
          = Config.get inherited self key' default).
Proof.
  intros inherited self key key' value default. split.
  - intros Hdot Hne Hcustom.
    unfold Config.set. rewrite (@split_no_sep _ _ Hdot).
    unfold Config.get.
    assert (Config.custom_get
              (Config._custom
                 (Config.with_custom self
                    (Config.custom_set (Config._custom self)
                       (Config.VStr key) value))) (Config.VStr key')
            = Config.custom_get (Config._custom self) (Config.VStr key'))
      as Hget.
    { cbn [Config._custom Config.with_custom]. rewrite custom_get_set.
      destruct (String.eqb_spec key key'); [congruence | reflexivity]. }
    destruct (String.eqb_spec key' "custom") as [->|_]; [congruence|].
    destruct (Config.split "." key') as [|part [|attr' rest']];
      rewrite ?section_obj_with_custom, ?Hget; reflexivity.
  - intros section attr rest Hsplit Hfield Hne1 Hne2.
    unfold Config.set. rewrite Hsplit.
    unfold Config.has_field in Hfield.
    destruct (Config.section_obj self section) as [obj|] eqn:E;
      [|discriminate].
    rewrite Hfield. unfold Config.get, Config.address in *.
    assert (forall s, s <> section ->
              Config.section_obj
                (Config.with_section self section
                   (Config.setattr obj attr value)) s
              = Config.section_obj self s) as Hother.
    { intros s Hs. rewrite (@section_obj_with_section _ _ s _ _ E).
      destruct (String.eqb_spec section s); [congruence | reflexivity]. }
    destruct (Config.split "." key') as [|part [|attr' rest']].
    + rewrite Hother by congruence. reflexivity.
    + rewrite Hother by congruence. reflexivity.
    + destruct (String.eqb_spec section part) as [<-|Hs].
      * rewrite (@section_obj_with_section _ _ section _ _ E), String.eqb_refl, E.
        unfold Config.setattr. rewrite get_set_other by congruence.
        reflexivity.
      * rewrite Hother by congruence. reflexivity.
Qed.

Lemma set_get_other_witness :
  Config.get Config.nothing_inherited
    (Config.set Config.new "language"%string (Config.VStr "zh"))
    "detector.model_path"%string Config.VNone
  = Config.get Config.nothing_inherited Config.new
      "detector.model_path"%string Config.VNone.
Proof.
  apply (proj1 (set_get_other Config.nothing_inherited Config.new
                  "language"%string "detector.model_path"%string
                  (Config.VStr "zh") Config.VNone));
    [reflexivity | discriminate | discriminate].
Defined.


(** ** Loading a well-shaped document *)

Section ConfigLoad.

Import Config.
Local Open Scope string_scope.









End ConfigLoad.



(** ** Initialisation of the detector *)

Section InitializeFacts.

Import Detector.

Variable machine : Machine.


End InitializeFacts.



(** ** The instances of the container *)

Section RegistryAbsent.

Import Registry.
Local Open Scope string_scope.

Variable Cls : Type.
Variable import_class : string -> string -> outcome (option Cls).

(** [get] adds no descriptor. *)
Lemma get_keeps_absent (self : Registry Cls) category n c' n' :
  PyDict.get (components_of self c') n' = None ->
  PyDict.get (components_of (snd (get import_class category n self)) c') n'
  = None.
Proof.
  intro Hnone.
  destruct (get_state import_class self category n)
    as [-> | (info & loaded & import_path & class_name
              & Hget & Hcls & Hlazy & Himp & ->)];
    [exact Hnone|].
  cbn [snd].
  destruct (String.eqb_spec category c') as [<-|Hc].
  - rewrite components_of_set_cls.
    destruct (String.eqb_spec n n') as [<-|Hn]; [congruence|].
    now rewrite get_set_other.
  - now rewrite components_of_set_cls_other.
Qed.

Lemma get_default_keeps_absent (self : Registry Cls) category c' n' :
  PyDict.get (components_of self c') n' = None ->
  PyDict.get (components_of (snd (get_default import_class category self)) c')
    n'
  = None.
Proof.
  intro Hnone. rewrite get_default_alt.
  destruct (default_name self category); [|exact Hnone].
  now apply get_keeps_absent.
Qed.

End RegistryAbsent.

Section InstanceFacts.

Import Deps.
Local Open Scope string_scope.

Variable machine : Detector.Machine.
Variable import_class : string -> string -> outcome (option Cls).

(** The container after [if key not in self._instances: ...]. *)
Lemma get_component_named (self : Deps) category message name :
  get_component machine import_class category message (Some name) self
  = lazy_get machine import_class (_get_instance_key category name)
      (if PyDict.contains (_instances self) (_get_instance_key category name)
       then self
       else with_instances self
              (PyDict.set (_instances self)
                 (_get_instance_key category name)
                 (_create_lazy_instance category name))).
Proof. reflexivity. Qed.

Lemma get_component_selected (self : Deps) category message name :
  pyget (_current_selections self) category = Some name ->
  get_component machine import_class category message None self
  = get_component machine import_class category message (Some name) self.
Proof.
  intro H. unfold get_component, bind, gets, ret. now rewrite H.
Qed.

Lemma lazy_get_cached (self : Deps) key handle instance :
  PyDict.get (_instances self) key = Some handle ->
  _instance handle = Some instance ->
  lazy_get machine import_class key self = (Returned instance, self).
Proof. intros H Hi. unfold lazy_get. now rewrite H, Hi. Qed.

Lemma lazy_get_result (self self' : Deps) key instance :
  lazy_get machine import_class key self = (Returned instance, self') ->
  exists handle,
    PyDict.get (_instances self') key = Some handle
    /\ _instance handle = Some instance.
Proof.
  unfold lazy_get.
  destruct (PyDict.get (_instances self) key) as [handle|] eqn:E;
    [|discriminate].
  destruct (_instance handle) as [cached|] eqn:Ei.
  - intros [= <- <-]. now exists handle.
  - destruct (factory machine import_class (fst (_factory handle))
                (snd (_factory handle)) self) as [[made|e] self2];
      [|discriminate].
    intros [= <- <-]. eexists. cbn [_instances with_instances].
    split; [apply get_set_same | reflexivity].
Qed.

Lemma lazy_get_fresh (self : Deps) key handle :
  PyDict.get (_instances self) key = Some handle ->
  _instance handle = None ->
  lazy_get machine import_class key self
  = match factory machine import_class (fst (_factory handle))
            (snd (_factory handle)) self with
    | (Returned instance, self2) =>
        (Returned instance,
         with_instances self2
           (PyDict.set (_instances self2) key
              {| _factory := _factory handle; _instance := Some instance |}))
    | (Raised e, self2) => (Raised e, self2)
    end.
Proof. intros H Hi. unfold lazy_get. now rewrite H, Hi. Qed.

End InstanceFacts.

(** X20.  The container keeps one instance for a category and a name: once
    [get_detector], [get_analyzer] or [get_config] has returned an instance
    for a name, the next call for that name returns the same instance and
    changes nothing in the container, whatever the machine and the loader
    would do: no class is loaded, constructed or initialised again. *)
Theorem get_component_cached :
  forall (machine machine' : Detector.Machine)
         (import_class import_class' :
            string -> string -> outcome (option Deps.Cls))
         (category message message' name : string)
         (self self' : Deps.Deps) (instance : Deps.Instance),
    Deps.get_component machine import_class category message (Some name) self
    = (Returned instance, self') ->
    Deps.get_component machine' import_class' category message' (Some name)
      self'
    = (Returned instance, self').
Proof.
  intros machine machine' import_class import_class' category message
         message' name self self' instance H.
  rewrite get_component_named in H.
  apply lazy_get_result in H. destruct H as (handle & Hget & Hinst).
  rewrite get_component_named. unfold PyDict.contains. rewrite Hget.
  now apply (lazy_get_cached _ _ _ _ Hget).
Qed.

Lemma get_component_cached_witness :
  let first :=
    Deps.get_detector Deps.no_landmarker (@Registry.no_module Deps.Cls)
      (Some "MediaPipe-Heavy"%string) (Deps.new Deps.heavy_registry) in
  exists instance,
    fst first = Returned instance
    /\ Deps.get_detector Deps.cpu_only (@Registry.no_module Deps.Cls)
         (Some "MediaPipe-Heavy"%string) (snd first)
       = (Returned instance, snd first).
Proof.
  cbv zeta.
  destruct (Deps.get_detector Deps.no_landmarker
              (@Registry.no_module Deps.Cls) (Some "MediaPipe-Heavy"%string)
              (Deps.new Deps.heavy_registry))
    as [[instance|e] container] eqn:E.
  - exists instance. split; [reflexivity|]. cbn [snd].
    exact (@get_component_cached Deps.no_landmarker Deps.cpu_only
             (@Registry.no_module Deps.Cls) (@Registry.no_module Deps.Cls)
             "detector"%string "没有可用的检测器"%string
             "没有可用的检测器"%string "MediaPipe-Heavy"%string
             (Deps.new Deps.heavy_registry) container instance E).
  - exfalso. rewrite get_detector_first in E by reflexivity.
    rewrite (@factory_found Deps.no_landmarker _ _ "detector"
               "MediaPipe-Heavy" Deps.MediaPipeHeavyDetector
               Deps.heavy_registry) in E by reflexivity.
    cbn [Deps.call Deps.MediaPipeHeavyDetector String.eqb Ascii.eqb Bool.eqb
         andb Deps.has_initialize] in E.
    unfold Deps.run_initialize, Detector.new in E.
    rewrite initialize_gpu in E. discriminate E.
Defined.

(** X21.  [select_detector], [select_analyzer] and [select_config] ask the
    registry for the class of the name.  When the registry has none, they
    raise [ValueError] with their message and the name, and the selections
    are what they were; when the loader of the class raises, the exception
    reaches the caller and the selections are what they were.  When the
    registry has the class, the name becomes the selection of the category:
    from then on a call of the getter without name is the call with this
    name.  In no case is an instance of the container dropped. *)
Theorem select_spec :
  forall (machine : Detector.Machine)
         (import_class : string -> string -> outcome (option Deps.Cls))
         (category message name : string) (self : Deps.Deps),
    let asked :=
      Registry.get import_class category name (Deps._registry self) in
    let result := Deps.select import_class category message name self in
    Deps._instances (snd result) = Deps._instances self
    /\ Deps._registry (snd result) = snd asked
    /\ (fst asked = Returned None ->
        fst result = Raised (ValueError (message ++ name))
        /\ Deps._current_selections (snd result)
           = Deps._current_selections self)
    /\ (forall e,
          fst asked = Raised e ->
          fst result = Raised e
          /\ Deps._current_selections (snd result)
             = Deps._current_selections self)
    /\ (forall cls,
          fst asked = Returned (Some cls) ->
          fst result = Returned tt
          /\ pyget (Deps._current_selections (snd result)) category
             = Some name
          /\ forall message',
               Deps.get_component machine import_class category message'
                 None (snd result)
               = Deps.get_component machine import_class category message'
                   (Some name) (snd result)).
Proof.
  intros machine import_class category message name self asked result.
  unfold result, Deps.select, bind, Deps.on_registry, raise, modify.
  fold asked. destruct asked as [[[cls|]|e] r]; cbn [fst snd].
  - split; [reflexivity|]. split; [reflexivity|].
    split; [discriminate|]. split; [discriminate|].
    intros c _. split; [reflexivity|].
    assert (pyget
              (Deps._current_selections
                 (Deps.with_selection (Deps.with_registry self r) category
                    name)) category = Some name) as Hsel.
    { unfold pyget. cbn [Deps._current_selections Deps.with_selection].
      now rewrite get_set_same. }
    split; [exact Hsel|].
    intro message'. now apply get_component_selected.
  - split; [reflexivity|]. split; [reflexivity|].
    split; [now split|]. split; discriminate.
  - split; [reflexivity|]. split; [reflexivity|].
    split; [discriminate|]. split; [|discriminate].
    intros e' [= <-]. now split.
Qed.

Lemma select_spec_witness :
  Deps.get_detector Deps.cpu_only (@Registry.no_module Deps.Cls) None
    (snd (Deps.select_detector (@Registry.no_module Deps.Cls)
            "MediaPipe-Heavy" (Deps.new Deps.heavy_registry)))
  = Deps.get_detector Deps.cpu_only (@Registry.no_module Deps.Cls)
      (Some "MediaPipe-Heavy"%string)
      (snd (Deps.select_detector (@Registry.no_module Deps.Cls)
              "MediaPipe-Heavy" (Deps.new Deps.heavy_registry))).
Proof.
  destruct (select_spec Deps.cpu_only (@Registry.no_module Deps.Cls)
              "detector" "未找到检测器: " "MediaPipe-Heavy"
              (Deps.new Deps.heavy_registry)) as (_ & _ & _ & _ & H).
  destruct (H Deps.MediaPipeHeavyDetector eq_refl) as (_ & _ & Hget).
  exact (Hget "没有可用的检测器"%string).
Defined.

(** X22.  [reset_instance] changes nothing when the container has no handle
    for the category and the name.  When it has one, the handle keeps its
    factory and loses its instance, the other handles, the registry and the
    selections are what they were, and the next call of the getter for the
    name runs the factory of the handle again and keeps what it returns.
    [reset_all] does the same for every handle. *)
Theorem reset_instance_spec :
  forall (self : Deps.Deps) (category name : string),
    let key := Deps._get_instance_key category name in
    let self' := Deps.reset_instance self category name in
    Deps._registry self' = Deps._registry self
    /\ Deps._current_selections self' = Deps._current_selections self
    /\ (PyDict.get (Deps._instances self) key = None -> self' = self)
    /\ (forall key',
          key' <> key ->
          PyDict.get (Deps._instances self') key'
          = PyDict.get (Deps._instances self) key')
    /\ (forall handle,
          PyDict.get (Deps._instances self) key = Some handle ->
          PyDict.get (Deps._instances self') key
          = Some (Deps.mkLazyInstance (Deps._factory handle) None)
          /\ forall machine import_class message,
               Deps.get_component machine import_class category message
                 (Some name) self'
               = match Deps.factory machine import_class
                         (fst (Deps._factory handle))
                         (snd (Deps._factory handle)) self' with
                 | (Returned instance, self2) =>
                     (Returned instance,
                      Deps.with_instances self2
                        (PyDict.set (Deps._instances self2) key
                           (Deps.mkLazyInstance (Deps._factory handle)
                              (Some instance))))
                 | (Raised e, self2) => (Raised e, self2)
                 end)
    /\ (forall key',
          PyDict.get (Deps._instances (Deps.reset_all self)) key'
          = option_map Deps.reset (PyDict.get (Deps._instances self) key')).
Proof.
  intros self category name key self'.
  assert (forall key',
             PyDict.get (Deps._instances (Deps.reset_all self)) key'
             = option_map Deps.reset (PyDict.get (Deps._instances self) key'))
    as Hall.
  { intro key'. unfold Deps.reset_all.
    cbn [Deps._instances Deps.with_instances].
    generalize (Deps._instances self). intro instances.
    induction instances as [|[k h] rest IH]; [reflexivity|].
    cbn. destruct (String.eqb k key'); [reflexivity | exact IH]. }
  unfold self', Deps.reset_instance. fold key.
  destruct (PyDict.get (Deps._instances self) key) as [handle|] eqn:E.
  - split; [reflexivity|]. split; [reflexivity|].
    split; [discriminate|]. split.
    { intros key' Hne. cbn [Deps._instances Deps.with_instances].
      apply get_set_other. congruence. }
    split.
    + intros h [= <-].
      assert (PyDict.get
                (Deps._instances
                   (Deps.with_instances self
                      (PyDict.set (Deps._instances self) key
                         (Deps.reset handle)))) key
              = Some (Deps.reset handle)) as Hget
        by (cbn [Deps._instances Deps.with_instances]; apply get_set_same).
      split; [exact Hget|].
      intros machine import_class message.
      rewrite get_component_named. fold key.
      unfold PyDict.contains. rewrite Hget.
      now rewrite (lazy_get_fresh machine import_class _ _ Hget).
    + exact Hall.
  - split; [reflexivity|]. split; [reflexivity|].
    split; [reflexivity|]. split; [reflexivity|].
    split; [discriminate | exact Hall].
Qed.

Lemma reset_instance_spec_witness :
  Deps.reset_instance (Deps.new Deps.heavy_registry) "detector"
    "MediaPipe-Heavy"
  = Deps.new Deps.heavy_registry.
Proof.
  apply (proj1 (proj2 (proj2
           (reset_instance_spec (Deps.new Deps.heavy_registry) "detector"
              "MediaPipe-Heavy")))).
  reflexivity.
Defined.

(** X23.  Without a name and without selection, the getters look for the
    instance under the [__name__] of the default class of the registry, not
    under the name the class is registered with: when the category has no
    component registered under that [__name__] and the container has no
    handle for it, the call raises [ValueError] for the missing component
    although the registry has a default class. *)
Theorem get_component_default_name :
  forall (machine : Detector.Machine)
         (import_class : string -> string -> outcome (option Deps.Cls))
         (category message : string) (self : Deps.Deps) (cls : Deps.Cls),
    pyget (Deps._current_selections self) category = None ->
    fst (Registry.get_default import_class category (Deps._registry self))
    = Returned (Some cls) ->
    PyDict.get (Registry.components_of (Deps._registry self) category)
      (Deps.__name__ cls) = None ->
    PyDict.get (Deps._instances self)
      (Deps._get_instance_key category (Deps.__name__ cls)) = None ->
    fst (Deps.get_component machine import_class category message None self)
    = Raised (ValueError ("未找到组件: " ++ category ++ "."
                          ++ Deps.__name__ cls)).
Proof.
  intros machine import_class category message self cls Hsel Hdef Habs
         Hinst.
  pose proof (get_default_keeps_absent import_class (Deps._registry self)
                category category (Deps.__name__ cls) Habs) as Habs'.
  unfold Deps.get_component, bind, gets, ret, raise, modify,
    Deps.on_registry at 1.
  rewrite Hsel.
  destruct (Registry.get_default import_class category (Deps._registry self))
    as [default r] eqn:Ed.
  cbn [fst snd] in Hdef, Habs'. subst default.
  unfold PyDict.contains.
  cbn [Deps._instances Deps.with_registry]. rewrite Hinst.
  unfold Deps.lazy_get. cbn [Deps._instances Deps.with_instances].
  rewrite get_set_same.
  cbn [Deps._instance Deps._create_lazy_instance Deps._factory fst snd].
  unfold Deps.factory, bind, Deps.on_registry, raise.
  cbn [Deps._registry Deps.with_instances Deps.with_registry].
  rewrite get_cases, Habs'. reflexivity.
Qed.

Lemma get_component_default_name_witness :
  fst (Deps.get_detector Deps.cpu_only (@Registry.no_module Deps.Cls) None
         (Deps.new Deps.heavy_registry))
  = Raised (ValueError "未找到组件: detector.MediaPipeHeavyDetector").
Proof.
  apply (@get_component_default_name Deps.cpu_only
           (@Registry.no_module Deps.Cls) "detector" "没有可用的检测器"
           (Deps.new Deps.heavy_registry) Deps.MediaPipeHeavyDetector);
    reflexivity.
Defined.

(** ** Progress of [LazyInstance.get] *)

Section ProgressFacts.

Import Threads.

Variable key : string.


End ProgressFacts.


